(** * Token-list scripts: retry executor, metadata fetcher, record
      validator and registry aggregator

    A shallow embedding of [scripts/utils/web3.py],
    [scripts/validate_tokens.py] and [scripts/generate_tokenlists_file.py].

    Effects are explicit.  The remote ledger is a world [W] that every
    contract call transforms; what the scripts do to the outside (calls,
    sleeps, printed lines, the written registry file) is recorded in a
    trace that the functions return next to their result. *)

From Stdlib Require Import ZArith List String Ascii Bool Lia.
From Stdlib Require Import Sorting.Sorted Sorting.Permutation.
From Stdlib Require Import Floats.PrimFloat Numbers.Cyclic.Int63.Uint63.
Import ListNotations.

Local Set Warnings "-register-all".

Local Open Scope string_scope.
Local Open Scope list_scope.
Local Open Scope Z_scope.

(** ** scripts/utils/web3.py *)

Module Web3Utils.

(** [CHAIN_ID = 143] and [DEFAULT_MAX_RETRIES = 3]. *)
Definition CHAIN_ID : Z := 143.
Definition DEFAULT_MAX_RETRIES : Z := 3.

(** What a run does to the outside: a call of the wrapped operation, with
    what it returned or raised, and a [time.sleep].  The call carries the
    [operation_name] under which the executor runs it. *)
Inductive event (E V D : Type) : Type :=
| EvCall (operation_name : string) (outcome : E + V)
| EvSleep (delay : D).
Arguments EvCall {E V D} operation_name outcome.
Arguments EvSleep {E V D} delay.

(** The exception raised at the end of [_retry_with_backoff]:
    [Exception(f"Failed to {operation_name} after {max_retries} attempts:
    {last_exception}")], raised [from last_exception]. *)
Record retry_exhausted (E : Type) : Type := RetryExhausted {
  failed_operation : string;
  attempts : Z;
  cause : option E
}.
Arguments RetryExhausted {E} failed_operation attempts cause.
Arguments failed_operation {E} r.
Arguments attempts {E} r.
Arguments cause {E} r.

Section Retry.
(** [W]: the state of the outside world the operation acts on; [E]: the
    exceptions an operation raises (instances of [Exception], which the
    [except] clause catches); [V]: the values it returns; [D]: the
    numbers delays are made of, with the product of [current_delay *=
    retry_backoff].  [time_sleep d] is what the world does while the
    script sleeps for [d], a delay that [time.sleep] takes. *)
Context {W E V D : Type}.
Variable mul : D -> D -> D.
Variable time_sleep : D -> W -> W.

Definition operation : Type := W -> W * (E + V).
Definition trace : Type := list (event E V D).

(** The [for attempt in range(max_retries)] loop, [todo] iterations
    left.  Leaving the loop raises the exhaustion error. *)
Fixpoint retry_loop (func : operation) (max_retries : Z) (retry_backoff : D)
    (operation_name : string) (todo : nat) (attempt : Z) (current_delay : D)
    (last_exception : option E) (w : W)
  : W * trace * (retry_exhausted E + V) :=
  match todo with
  | O => (w, [], inl (RetryExhausted operation_name max_retries last_exception))
  | S todo' =>
      match func w with
      | (w1, inr v) => (w1, [EvCall operation_name (inr v)], inr v)
      | (w1, inl e) =>
          if attempt <? max_retries - 1 then
            let '(w2, tr, res) :=
              retry_loop func max_retries retry_backoff operation_name todo'
                (attempt + 1) (mul current_delay retry_backoff) (Some e)
                (time_sleep current_delay w1) in
            (w2, EvCall operation_name (inl e) :: EvSleep current_delay :: tr, res)
          else
            let '(w2, tr, res) :=
              retry_loop func max_retries retry_backoff operation_name todo'
                (attempt + 1) current_delay (Some e) w1 in
            (w2, EvCall operation_name (inl e) :: tr, res)
      end
  end.

Definition _retry_with_backoff (func : operation) (max_retries : Z)
    (retry_delay retry_backoff : D) (operation_name : string) (w : W)
  : W * trace * (retry_exhausted E + V) :=
  retry_loop func max_retries retry_backoff operation_name
    (Z.to_nat max_retries) 0 retry_delay None w.

(** *** Reading a trace *)

Definition is_call (ev : event E V D) : bool :=
  match ev with EvCall _ _ => true | EvSleep _ => false end.

Definition count_calls (tr : trace) : nat := List.length (filter is_call tr).

Fixpoint sleep_delays (tr : trace) : list D :=
  match tr with
  | [] => []
  | EvSleep d :: tr' => d :: sleep_delays tr'
  | EvCall _ _ :: tr' => sleep_delays tr'
  end.



(** [d * b * ... * b], the delay after [k] failed attempts. *)
Definition delay_after (d b : D) (k : nat) : D :=
  Nat.iter k (fun x => mul x b) d.

(** [b ^ k], for a unit [one] of the product. *)
Variable one : D.


End Retry.

(** The record [fetch_token_data_with_retry] returns: a dict with the keys
    [chainId], [address], [name], [symbol], [decimals], in this order.  The
    three fetched fields hold whatever the contract calls returned. *)
Record token_data (V : Type) : Type := TokenData {
  chainId : Z;
  address : string;
  name : V;
  symbol : V;
  decimals : V
}.
Arguments TokenData {V} chainId address name symbol decimals.
Arguments chainId {V} t.
Arguments address {V} t.
Arguments name {V} t.
Arguments symbol {V} t.
Arguments decimals {V} t.

(** What a fetch raises: an exception of [web3.eth.contract], which no
    handler wraps, or the exhaustion error of one field's executor. *)
Inductive fetch_error (E : Type) : Type :=
| Propagated (e : E)
| Exhausted (r : retry_exhausted E).
Arguments Propagated {E} e.
Arguments Exhausted {E} r.

Section Fetch.
(** [C]: contract handles.  [eth_contract address] is
    [web3.eth.contract(address=address, abi=ERC20_ABI)]; [call_name c]
    is [c.functions.name().call()], and likewise for the other two. *)
Context {W E V D C : Type}.
Variable mul : D -> D -> D.
Variable time_sleep : D -> W -> W.
Variable eth_contract : string -> W -> W * (E + C).
Variable call_name call_symbol call_decimals : C -> W -> W * (E + V).

(** Computations on the world that log a trace and may raise. *)
Definition fetch (X : Type) : Type :=
  W -> W * list (event E V D) * (fetch_error E + X).

Definition ret {X} (x : X) : fetch X := fun w => (w, [], inr x).

Definition bind {X Y} (m : fetch X) (k : X -> fetch Y) : fetch Y :=
  fun w =>
    match m w with
    | (w1, tr1, inl err) => (w1, tr1, inl err)
    | (w1, tr1, inr x) =>
        let '(w2, tr2, res) := k x w1 in (w2, tr1 ++ tr2, res)
    end.

Definition contract_at (address : string) : fetch C :=
  fun w =>
    match eth_contract address w with
    | (w1, inl e) => (w1, [], inl (Propagated e))
    | (w1, inr c) => (w1, [], inr c)
    end.

Definition retrying (func : W -> W * (E + V)) (max_retries : Z)
    (retry_delay retry_backoff : D) (operation_name : string) : fetch V :=
  fun w =>
    match _retry_with_backoff mul time_sleep func max_retries retry_delay
            retry_backoff operation_name w with
    | (w1, tr, inl r) => (w1, tr, inl (Exhausted r))
    | (w1, tr, inr v) => (w1, tr, inr v)
    end.

Notation "x <- m ;; k" := (bind m (fun x => k))
  (at level 100, m at next level, right associativity).

Definition fetch_token_name_with_retry (address : string) (max_retries : Z)
    (retry_delay retry_backoff : D) : fetch V :=
  contract <- contract_at address ;;
  retrying (call_name contract) max_retries retry_delay retry_backoff
    "fetch name".

Definition fetch_token_symbol_with_retry (address : string) (max_retries : Z)
    (retry_delay retry_backoff : D) : fetch V :=
  contract <- contract_at address ;;
  retrying (call_symbol contract) max_retries retry_delay retry_backoff
    "fetch symbol".

Definition fetch_token_decimals_with_retry (address : string)
    (max_retries : Z) (retry_delay retry_backoff : D) : fetch V :=
  contract <- contract_at address ;;
  retrying (call_decimals contract) max_retries retry_delay retry_backoff
    "fetch decimals".

Definition fetch_token_data_with_retry (address : string) (max_retries : Z)
    (retry_delay retry_backoff : D) : fetch (token_data V) :=
  name <- fetch_token_name_with_retry address max_retries retry_delay
            retry_backoff ;;
  symbol <- fetch_token_symbol_with_retry address max_retries retry_delay
              retry_backoff ;;
  decimals <- fetch_token_decimals_with_retry address max_retries
                retry_delay retry_backoff ;;
  ret (TokenData CHAIN_ID address name symbol decimals).

(** *** Reading a fetch trace, field by field *)

Definition is_call_of (f : string) (ev : event E V D) : bool :=
  match ev with EvCall g _ => String.eqb g f | EvSleep _ => false end.

Definition is_failure_of (f : string) (ev : event E V D) : bool :=
  match ev with EvCall g (inl _) => String.eqb g f | _ => false end.

Definition calls_of (f : string) (tr : list (event E V D)) : nat :=
  List.length (filter (is_call_of f) tr).

Definition failures_of (f : string) (tr : list (event E V D)) : nat :=
  List.length (filter (is_failure_of f) tr).

(** The values the calls of [f] returned, in the order of the trace. *)
Fixpoint returned_by (f : string) (tr : list (event E V D)) : list V :=
  match tr with
  | [] => []
  | EvCall g (inr v) :: tr' =>
      if String.eqb g f then v :: returned_by f tr' else returned_by f tr'
  | _ :: tr' => returned_by f tr'
  end.

(** No call of [f] comes after a call of [f] that returned. *)
Fixpoint never_refetched (f : string) (tr : list (event E V D)) : Prop :=
  match tr with
  | [] => True
  | EvCall g (inr _) :: tr' =>
      (g = f -> calls_of f tr' = 0%nat) /\ never_refetched f tr'
  | _ :: tr' => never_refetched f tr'
  end.


(** What the fetch of the one field [op], with budget [n], leaves in the
    trace, by its result. *)
Definition field_run (op : string) (n : Z) (tr : list (event E V D))
    (res : fetch_error E + V) : Prop :=
  (forall f, f <> op -> calls_of f tr = 0%nat) /\
  (calls_of op tr <= Z.to_nat n)%nat /\
  never_refetched op tr /\
  match res with
  | inr v => returned_by op tr = [v] /\ (failures_of op tr < Z.to_nat n)%nat
  | inl (Propagated _) => tr = []
  | inl (Exhausted r) =>
      returned_by op tr = [] /\
      failures_of op tr = Z.to_nat n /\
      failed_operation r = op /\
      attempts r = n /\
      (1 <= n ->
       exists e pre, cause r = Some e /\ tr = pre ++ [EvCall op (inl e)])
  end.

End Fetch.


End Web3Utils.

(** ** Python values and built-ins the two directory scripts use *)

Module Py.

(** What [json5.load] returns: [None], [bool], [int], [float], [str],
    [list] and [dict] objects.  A dict is the list of its items in
    insertion order. *)
Inductive json : Type :=
| JNull
| JBool (b : bool)
| JInt (z : Z)
| JFloat (x : PrimFloat.float)
| JStr (s : string)
| JList (items : list json)
| JObj (items : list (string * json)).

(** A value of the script: a parsed value, or one of the type objects
    [int] and [str] that the script passes as the default of [dict.get]. *)
Inductive pyval : Type :=
| Val (j : json)
| TypeObject (type_name : string).

(** Exceptions.  [OSError] is told apart because [generate] handles it in
    a clause of its own. *)
Inductive pyexn : Type :=
| TypeError
| AttributeError
| KeyError (key : string)
| OSError (message : string)
| OtherError (message : string).

(** The lines the scripts print, by their template. *)
Inductive line : Type :=
| LDirNotFound
| LNoJsonFiles
| LValidating (n : nat)
| LAdding (n : nat)
| LErrorReading (filepath : string) (e : pyexn)
| LMissing (filename : string) (missing : list string)
| LInvalidChainId
| LInvalidAddress (address : pyval)
| LNotImage (logo_uri : pyval)
| LInvalidDecimals
| LValid (filename : string)
| LInvalid (filename : string)
| LCreated (file_out : string)
| LWriteError (e : pyexn)
| LUnexpected (e : pyexn).

(** How a script's [main()], called at module level, ends: it returns,
    [sys.exit(code)] is called, or an exception is not caught. *)
Inductive termination : Type :=
| Returns (value : option bool)
| SysExit (code : Z)
| Uncaught (e : pyexn).

(** The exit status of the interpreter. *)
Definition exit_status (t : termination) : Z :=
  match t with
  | Returns _ => 0
  | SysExit code => code
  | Uncaught _ => 1
  end.

(** [s.startswith(p)], [s.endswith(p)], [s[n:]], [c in s] for a
    character [c], [p in s] for strings, [all(p(c) for c in s)]. *)
Definition startswith (s p : string) : bool := String.prefix p s.

Definition endswith (s p : string) : bool :=
  (String.length p <=? String.length s)%nat
  && String.eqb
       (substring (String.length s - String.length p) (String.length p) s) p.

Definition slice_from (n : nat) (s : string) : string :=
  substring n (String.length s - n) s.

Definition char_in (c : ascii) (s : string) : bool :=
  existsb (Ascii.eqb c) (list_ascii_of_string s).

Definition str_contains (s p : string) : bool :=
  match String.index 0 p s with Some _ => true | None => false end.

Definition all_chars (p : ascii -> bool) (s : string) : bool :=
  forallb p (list_ascii_of_string s).

(** [c.lower()] and [s.lower()] on the characters below 128: two strings
    with the same image differ in the case of their letters only. *)
Definition lower_char (c : ascii) : ascii :=
  let n := nat_of_ascii c in
  if (65 <=? n)%nat && (n <=? 90)%nat then ascii_of_nat (n + 32) else c.

Fixpoint lower (s : string) : string :=
  match s with
  | EmptyString => EmptyString
  | String c s' => String (lower_char c) (lower s')
  end.

(** [os.path.join(a, b)] and [os.path.split(p)[-1]] on POSIX. *)
Definition os_path_join (a b : string) : string :=
  if startswith b "/" then b
  else if String.eqb a "" || endswith a "/" then a ++ b
  else a ++ "/" ++ b.

Fixpoint os_path_basename (p : string) : string :=
  match p with
  | EmptyString => EmptyString
  | String c p' =>
      if str_contains p "/" then os_path_basename p' else p
  end.

(** [sorted] on a list of [str]: order of the code points. *)
Fixpoint insert_sorted (x : string) (l : list string) : list string :=
  match l with
  | [] => [x]
  | y :: l' => if String.leb x y then x :: l else y :: insert_sorted x l'
  end.

Fixpoint sorted (l : list string) : list string :=
  match l with
  | [] => []
  | x :: l' => insert_sorted x (sorted l')
  end.

(** [field in data], which raises on objects that are not containers. *)
Definition contains (data : json) (field : string) : pyexn + bool :=
  match data with
  | JObj items => inr (existsb (String.eqb field) (map fst items))
  | JList items =>
      inr (existsb (fun x => match x with
                             | JStr s => String.eqb s field
                             | _ => false
                             end) items)
  | JStr s => inr (str_contains s field)
  | _ => inl TypeError
  end.

Fixpoint lookup (key : string) (items : list (string * json)) : option json :=
  match items with
  | [] => None
  | (k, v) :: items' => if String.eqb k key then Some v else lookup key items'
  end.

(** [data.get(key, default)]: only dicts have the method. *)
Definition get (data : json) (key : string) (default : pyval) : pyexn + pyval :=
  match data with
  | JObj items =>
      match lookup key items with
      | Some v => inr (Val v)
      | None => inr default
      end
  | _ => inl AttributeError
  end.

(** [v != n], [v < n] and [v > n] for an [int] literal [n] that a float
    holds exactly.  [bool] is a subclass of [int]. *)
Definition ne_int (v : pyval) (n : Z) : bool :=
  match v with
  | Val (JInt z) => negb (z =? n)
  | Val (JBool b) => negb ((if b then 1 else 0) =? n)
  | Val (JFloat x) => negb (PrimFloat.eqb x (PrimFloat.of_uint63 (Uint63.of_Z n)))
  | _ => true
  end.

Definition lt_int (v : pyval) (n : Z) : pyexn + bool :=
  match v with
  | Val (JInt z) => inr (z <? n)
  | Val (JBool b) => inr ((if b then 1 else 0) <? n)
  | Val (JFloat x) => inr (PrimFloat.ltb x (PrimFloat.of_uint63 (Uint63.of_Z n)))
  | _ => inl TypeError
  end.

Definition gt_int (v : pyval) (n : Z) : pyexn + bool :=
  match v with
  | Val (JInt z) => inr (n <? z)
  | Val (JBool b) => inr (n <? (if b then 1 else 0))
  | Val (JFloat x) => inr (PrimFloat.ltb (PrimFloat.of_uint63 (Uint63.of_Z n)) x)
  | _ => inl TypeError
  end.

End Py.

(** ** scripts/validate_tokens.py *)

Module ValidateTokens.
Import Py.

Definition REQUIRED_FIELDS : list string :=
  ["chainId"; "address"; "name"; "symbol"; "decimals"; "logoURI"].

Definition is_valid_address (address : string) : bool :=
  startswith address "0x"
  && (String.length address =? 42)%nat
  && all_chars (fun c => char_in c "0123456789ABCDEFabcdef")
       (slice_from 2 address).

(** The characters the address check allows in the payload. *)
Definition hex_digits : string := "0123456789ABCDEFabcdef".

(** The call [is_valid_address(address)] on a value that need not be a
    [str]: looking up [startswith] fails on the other parsed values, and
    on the type object [str] the call misses its argument. *)
Definition call_is_valid_address (address : pyval) : pyexn + bool :=
  match address with
  | Val (JStr s) => inr (is_valid_address s)
  | Val _ => inl AttributeError
  | TypeObject t => if String.eqb t "str" then inl TypeError else inl AttributeError
  end.

Definition image_formats : list string :=
  ["image/png"; "image/jpeg"; "image/jpg"; "image/svg+xml"].

(** The five rejections of the validator, in the words of the
    specification. *)
Inductive defect : Type :=
| MissingField
| WrongChain
| InvalidAddress
| UnreachableOrWrongTypeLogo
| DecimalsOutOfRange.

Section Validate.
(** [json5_load_file filepath]: opening [filepath] and [json5.load] on
    it.  [requests_head url]: [requests.head(url)], which raises or
    gives a response, of which the script reads
    [headers["content-type"]] ([None] when the header is absent). *)
Variable json5_load_file : string -> pyexn + json.
Variable requests_head : pyval -> pyexn + option string.

Definition is_url_image (image_url : pyval) : pyexn + bool :=
  match requests_head image_url with
  | inl e => inl e
  | inr None => inl (KeyError "content-type")
  | inr (Some content_type) =>
      inr (existsb (String.eqb content_type) image_formats)
  end.

(** [[field for field in REQUIRED_FIELDS if field not in data]]. *)
Fixpoint missing_of (data : json) (fields : list string)
  : pyexn + list string :=
  match fields with
  | [] => inr []
  | field :: fields' =>
      match contains data field with
      | inl e => inl e
      | inr present =>
          match missing_of data fields' with
          | inl e => inl e
          | inr missing =>
              inr (if present then missing else field :: missing)
          end
      end
  end.

(** The body of [is_valid_file] after the file is parsed. *)
Definition validate_data (filename : string) (data : json)
  : list line * (pyexn + bool) :=
  match missing_of data REQUIRED_FIELDS with
  | inl e => ([], inl e)
  | inr ((_ :: _) as missing) => ([LMissing filename missing], inr false)
  | inr [] =>
  match get data "chainId" (TypeObject "int") with
  | inl e => ([], inl e)
  | inr chain_id =>
  if ne_int chain_id 143 then ([LInvalidChainId], inr false) else
  match get data "address" (TypeObject "str") with
  | inl e => ([], inl e)
  | inr address =>
  match call_is_valid_address address with
  | inl e => ([], inl e)
  | inr false => ([LInvalidAddress address], inr false)
  | inr true =>
  match get data "logoURI" (TypeObject "str") with
  | inl e => ([], inl e)
  | inr logo_uri =>
  match is_url_image logo_uri with
  | inl e => ([], inl e)
  | inr false => ([LNotImage logo_uri], inr false)
  | inr true =>
  match get data "decimals" (TypeObject "int") with
  | inl e => ([], inl e)
  | inr decimals =>
  match lt_int decimals 6 with
  | inl e => ([], inl e)
  | inr true => ([LInvalidDecimals], inr false)
  | inr false =>
  match gt_int decimals 36 with
  | inl e => ([], inl e)
  | inr true => ([LInvalidDecimals], inr false)
  | inr false => ([], inr true)
  end end end end end end end end end.

Definition is_valid_file (filepath : string) : list line * (pyexn + bool) :=
  match json5_load_file filepath with
  | inl e => ([LErrorReading filepath e], inr false)
  | inr data => validate_data (os_path_basename filepath) data
  end.

Definition is_record_file (f : string) : bool :=
  endswith f ".json" || endswith f ".jsonc".

(** The [for filename in json_files] loop of [main]. *)
Fixpoint validate_all (base_dir : string) (json_files : list string)
  : list line * termination :=
  match json_files with
  | [] => ([], Returns None)
  | filename :: rest =>
      let filepath := os_path_join base_dir filename in
      match is_valid_file filepath with
      | (out, inl e) => (out, Uncaught e)
      | (out, inr is_valid) =>
          let '(out', t) := validate_all base_dir rest in
          (out ++ (if is_valid then LValid filename else LInvalid filename)
               :: out', t)
      end
  end.

(** [listdir] is [None] when [base_dir] is not a directory, and else
    what [os.listdir(base_dir)] returns. *)
Definition main (base_dir : string) (listdir : option (list string))
  : list line * termination :=
  match listdir with
  | None => ([LDirNotFound], SysExit 1)
  | Some names =>
      let json_files := filter is_record_file (sorted names) in
      match json_files with
      | [] => ([LNoJsonFiles], SysExit 0)
      | _ :: _ =>
          let '(out, t) := validate_all base_dir json_files in
          (LValidating (List.length json_files) :: out, t)
      end
  end.

(** *** The checks of the specification, one by one

    Each says what its [if] of [is_valid_file] decides on [data]:
    [inr true] when the check passes, [inr false] when it fails, [inl e]
    when evaluating it raises [e]. *)
Definition check (d : defect) (data : json) : pyexn + bool :=
  match d with
  | MissingField =>
      match missing_of data REQUIRED_FIELDS with
      | inl e => inl e
      | inr missing => inr (match missing with [] => true | _ => false end)
      end
  | WrongChain =>
      match get data "chainId" (TypeObject "int") with
      | inl e => inl e
      | inr v => inr (negb (ne_int v 143))
      end
  | InvalidAddress =>
      match get data "address" (TypeObject "str") with
      | inl e => inl e
      | inr v => call_is_valid_address v
      end
  | UnreachableOrWrongTypeLogo =>
      match get data "logoURI" (TypeObject "str") with
      | inl e => inl e
      | inr v => is_url_image v
      end
  | DecimalsOutOfRange =>
      match get data "decimals" (TypeObject "int") with
      | inl e => inl e
      | inr v =>
          match lt_int v 6 with
          | inl e => inl e
          | inr true => inr false
          | inr false =>
              match gt_int v 36 with
              | inl e => inl e
              | inr above => inr (negb above)
              end
          end
      end
  end.

Definition check_order : list defect :=
  [MissingField; WrongChain; InvalidAddress; UnreachableOrWrongTypeLogo;
   DecimalsOutOfRange].

(** The first check of [checks], in order, that does not pass on
    [data], with what it does: [None] when all pass. *)
Fixpoint first_not_passing (checks : list defect) (data : json)
  : option (defect * (pyexn + bool)) :=
  match checks with
  | [] => None
  | d :: checks' =>
      match check d data with
      | inr true => first_not_passing checks' data
      | other => Some (d, other)
      end
  end.

(** The defect a printed line reports. *)
Definition reported (l : line) : option defect :=
  match l with
  | LMissing _ _ => Some MissingField
  | LInvalidChainId => Some WrongChain
  | LInvalidAddress _ => Some InvalidAddress
  | LNotImage _ => Some UnreachableOrWrongTypeLogo
  | LInvalidDecimals => Some DecimalsOutOfRange
  | _ => None
  end.

End Validate.

End ValidateTokens.

(** ** scripts/generate_tokenlists_file.py *)

Module GenerateTokenlists.
Import Py.

(** What a run does to the outside: a printed line, [open(file, "w")]
    creating or truncating [file], [json5.dump] writing a document to it. *)
Inductive effect : Type :=
| Print (l : line)
| OpenW (file : string)
| Dump (file : string) (doc : json).

Definition file_out : string := "tokenlist-mainnet.json".

Definition is_record_file (f : string) : bool :=
  endswith f ".json" || endswith f ".jsonc".

Definition is_OSError (e : pyexn) : bool :=
  match e with OSError _ => true | _ => false end.

(** The two [except] clauses around the write. *)
Definition write_failure (e : pyexn) : line :=
  if is_OSError e then LWriteError e else LUnexpected e.

Section Generate.
(** [json5_load_file filepath]: opening [filepath] and [json5.load] on
    it; [now]: [datetime.now(timezone.utc).isoformat()]; [open_w file]:
    the exception of [open(file, "w")], if any; [json5_dump file doc]:
    the exception of [json5.dump(doc, f, ...)], if any. *)
Variable json5_load_file : string -> pyexn + json.
Variable now : string.
Variable open_w : string -> option pyexn.
Variable json5_dump : string -> json -> option pyexn.

(** The [for filename in json_files] loop of [main], [tokens] being the
    list appended to; it stops at the first file that does not load. *)
Fixpoint load_tokens (base_dir : string) (json_files : list string)
    (tokens : list json) : string * pyexn + list json :=
  match json_files with
  | [] => inr tokens
  | filename :: rest =>
      let filepath := os_path_join base_dir filename in
      match json5_load_file filepath with
      | inl e => inl (filepath, e)
      | inr token_data => load_tokens base_dir rest (tokens ++ [token_data])
      end
  end.

Definition main (base_dir : string) (listdir : option (list string))
  : list effect * termination :=
  match listdir with
  | None => ([Print LDirNotFound], SysExit 1)
  | Some names =>
      let json_files := filter is_record_file (sorted names) in
      match json_files with
      | [] => ([Print LNoJsonFiles], SysExit 0)
      | _ :: _ =>
          let adding := Print (LAdding (List.length json_files)) in
          match load_tokens base_dir json_files [] with
          | inl (filepath, e) =>
              ([adding; Print (LErrorReading filepath e)],
               Returns (Some false))
          | inr tokens =>
              let data :=
                JObj
                  [("name", JStr "Monad Mainnet");
                   ("logoURI",
                    JStr "https://raw.githubusercontent.com/monad-crypto/token-list/refs/heads/main/assets/monad.svg");
                   ("keywords", JList [JStr "monad mainnet"]);
                   ("timestamp", JStr now);
                   ("tokens", JList tokens);
                   ("version",
                    JObj [("major", JInt 0); ("minor", JInt 0);
                          ("patch", JInt 1)])] in
              match open_w file_out with
              | Some e => ([adding; Print (write_failure e)], Returns None)
              | None =>
                  match json5_dump file_out data with
                  | Some e =>
                      ([adding; OpenW file_out; Print (write_failure e)],
                       Returns None)
                  | None =>
                      ([adding; OpenW file_out; Dump file_out data;
                        Print (LCreated file_out)], Returns None)
                  end
              end
          end
      end
  end.

(** *** Reading a run *)

Definition touches_output (ef : effect) : bool :=
  match ef with Print _ => false | OpenW _ => true | Dump _ _ => true end.

(** The documents a run wrote. *)
Fixpoint written (efs : list effect) : list json :=
  match efs with
  | [] => []
  | Dump _ doc :: efs' => doc :: written efs'
  | _ :: efs' => written efs'
  end.

End Generate.

(** The string order of [sorted]. *)
Definition str_le (a b : string) : Prop := String.leb a b = true.

End GenerateTokenlists.

(** ** Shapes of executor traces *)

Module Web3Traces.
Import Web3Utils.

Section Attempts.
Context {E V D : Type}.
Variable mul : D -> D -> D.

(** The trace of attempts that failed with the errors [es], one after the
    other, each followed by its sleep: the first sleep lasts [c], and
    every next one [retry_backoff] times the one before. *)
Fixpoint failed_attempts (op : string) (c b : D) (es : list E)
  : list (event E V D) :=
  match es with
  | [] => []
  | e :: es' =>
      EvCall op (inl e) :: EvSleep c :: failed_attempts op (mul c b) b es'
  end.

(** A delay the executor may sleep for under the budget [n]: the
    initial delay times the backoff at most [n - 2] times over. *)
Definition allowed_delay (n : Z) (d b x : D) : Prop :=
  exists i, (i < Z.to_nat n - 1)%nat /\ x = delay_after mul d b i.

End Attempts.

End Web3Traces.

(** ** Scenarios

    Concrete worlds and directories on which the scripts are run below. *)

Module Scenarios.
Import Web3Utils Py.

(** A ledger that counts the calls made to it.  Its contract answers
    [name()] and [symbol()] and raises on every [decimals()]. *)
Definition flaky_name (_ : unit) (w : nat) : nat * (string + string) :=
  (S w, inr "Test").
Definition flaky_symbol (_ : unit) (w : nat) : nat * (string + string) :=
  (S w, inr "TST").
Definition flaky_decimals (_ : unit) (w : nat) : nat * (string + string) :=
  (S w, inl "execution reverted").
Definition any_contract (_ : string) (w : nat) : nat * (string + unit) :=
  (w, inr tt).

Definition flaky_fetch :=
  fetch_token_data_with_retry Z.mul (fun _ w => w) any_contract flaky_name
    flaky_symbol flaky_decimals "0xAbC" 2 1 2 0%nat.

(** Staged records.  [hex40] is a 40-digit payload. *)
Definition hex40 : string := "AbCdEf0123456789aBcDeF0123456789abcdef01".

Definition record (chain : Z) (addr : string) (dec : Z) (logo : string)
  : json :=
  JObj [("chainId", JInt chain); ("address", JStr addr);
        ("name", JStr "Test"); ("symbol", JStr "TST");
        ("decimals", JInt dec); ("logoURI", JStr logo)].

Definition good_logo : string := "https://x/logo.png".
Definition down_logo : string := "https://down.example/logo.png".

(** The logo host answers [image/png]; the other host is down, so that
    [requests.head] raises; everything else is a web page. *)
Definition probe (url : pyval) : pyexn + option string :=
  match url with
  | Val (JStr u) =>
      if String.eqb u good_logo then inr (Some "image/png")
      else if String.eqb u down_logo then inl (OtherError "ConnectionError")
      else inr (Some "text/html")
  | _ => inl (OtherError "MissingSchema")
  end.

(** The files of the staging directory, by path. *)
Definition staged (filepath : string) : pyexn + json :=
  if String.eqb filepath "mainnet/AAA.json" then
    inr (record 143 ("0x" ++ hex40) 18 good_logo)
  else if String.eqb filepath "mainnet/ZZZ.json" then
    inr (record 143 ("0x" ++ hex40) 6 good_logo)
  else if String.eqb filepath "mainnet/dec5.json" then
    inr (record 143 ("0x" ++ hex40) 5 good_logo)
  else if String.eqb filepath "mainnet/dec36.json" then
    inr (record 143 ("0x" ++ hex40) 36 good_logo)
  else if String.eqb filepath "mainnet/dec37.json" then
    inr (record 143 ("0x" ++ hex40) 37 good_logo)
  else if String.eqb filepath "mainnet/two_defects.json" then
    inr (record 1 ("0x" ++ hex40) 3 good_logo)
  else if String.eqb filepath "mainnet/down.json" then
    inr (record 143 ("0x" ++ hex40) 18 down_logo)
  else if String.eqb filepath "mainnet/no_logo.json" then
    inr (JObj [("chainId", JInt 143); ("address", JStr ("0x" ++ hex40));
               ("name", JStr "Test"); ("symbol", JStr "TST");
               ("decimals", JInt 18)])
  else if String.eqb filepath "mainnet/broken.json" then
    inl (OtherError "Unexpected end of input")
  else inl (OSError "No such file or directory").

(** An output file that can be opened and written. *)
Definition open_ok (_ : string) : option pyexn := None.
Definition dump_ok (_ : string) (_ : json) : option pyexn := None.

End Scenarios.

(** ** scripts/add_token.py, with [validate_address] and
       [get_web3_connection] of scripts/utils/web3.py *)

Module AddToken.
Import Web3Utils.

Definition DEFAULT_RPC_URL : string := "https://rpc.monad.xyz".
Definition DEFAULT_RETRY_DELAY : PrimFloat.float := 1%float.
Definition DEFAULT_RETRY_BACKOFF : PrimFloat.float := 2%float.

(** The exceptions of a run.  [E] are the ledger library's, [P] the
    paths, [X] what the file system raises. *)
Inductive exn (E P X : Type) : Type :=
| ValueError (address : string)
| ConnectionError (url : string)
| FileNotFoundError (dir : P)
| FileExistsError (dir : P)
| TypeError
| FetchError (err : fetch_error E)
| OsError (x : X).
Arguments ValueError {E P X} address.
Arguments ConnectionError {E P X} url.
Arguments FileNotFoundError {E P X} dir.
Arguments FileExistsError {E P X} dir.
Arguments TypeError {E P X}.
Arguments FetchError {E P X} err.
Arguments OsError {E P X} x.

(** The lines [main] prints, by their template. *)
Inductive line (E V P X : Type) : Type :=
| LNoAddress
| LValidating (address : string)
| LChecksummed (address : string)
| LConnected
| LFetching (address : string)
| LTokenFound
| LName (v : V)
| LSymbol (v : V)
| LDecimals (v : V)
| LCreating
| LAdded
| LDirectory (dir : P)
| LDataFile (file : P)
| LNote (symbol : V)
| LError (e : exn E P X)
| LUnexpected (e : exn E P X).
Arguments LNoAddress {E V P X}.
Arguments LValidating {E V P X} address.
Arguments LChecksummed {E V P X} address.
Arguments LConnected {E V P X}.
Arguments LFetching {E V P X} address.
Arguments LTokenFound {E V P X}.
Arguments LName {E V P X} v.
Arguments LSymbol {E V P X} v.
Arguments LDecimals {E V P X} v.
Arguments LCreating {E V P X}.
Arguments LAdded {E V P X}.
Arguments LDirectory {E V P X} dir.
Arguments LDataFile {E V P X} file.
Arguments LNote {E V P X} symbol.
Arguments LError {E V P X} e.
Arguments LUnexpected {E V P X} e.

(** What a run does to the outside: a printed line, an event of the
    fetch, [mkdir] of a directory, [open(file, "w")], and the record
    written to a file with its closing newline. *)
Inductive effect (E V P X : Type) : Type :=
| Out (l : line E V P X)
| Ledger (ev : event E V PrimFloat.float)
| Mkdir (dir : P)
| OpenW (file : P)
| Written (file : P) (data : token_data V).
Arguments Out {E V P X} l.
Arguments Ledger {E V P X} ev.
Arguments Mkdir {E V P X} dir.
Arguments OpenW {E V P X} file.
Arguments Written {E V P X} file data.

(** How [main] ends: it returns an exit code, or the exception of
    [input], which is read outside the [try], leaves it. *)
Inductive outcome : Type :=
| Return (code : Z)
| InputRaised.

Section Script.
(** The ledger: [is_connected url] is [Web3(Web3.HTTPProvider(url))
    .is_connected()]; the contract and its calls are as in the fetcher.
    The library: [is_address] and [to_checksum_address] of [Web3];
    [environ_rpc_url] is [os.environ.get("MONAD_RPC_URL")].  Paths:
    [truediv p s] is [p / s]; [as_str v] is the string [v] when [v] is
    one, the only values [/] takes from the ledger; [script_parent] is
    [Path(__file__).resolve().parent.parent].  The file system:
    [is_dir], [path_exists], and what [mkdir(parents=True,
    exist_ok=False)], [open("w")] and the two writes raise, if anything. *)
Context {W E V C P X : Type}.
Variable time_sleep : PrimFloat.float -> W -> W.
Variable eth_contract : string -> W -> W * (E + C).
Variable call_name call_symbol call_decimals : C -> W -> W * (E + V).
Variable is_connected : string -> W -> W * bool.
Variable is_address : string -> bool.
Variable to_checksum_address : string -> string.
Variable environ_rpc_url : option string.
Variable truediv : P -> string -> P.
Variable as_str : V -> option string.
Variable script_parent : P.
Variable is_dir : P -> bool.
Variable path_exists : P -> bool.
Variable mkdir : P -> option X.
Variable open_w : P -> option X.
Variable json_dump : token_data V -> option X.
(** Whether an exception of the ledger library or of the file system is
    an instance of one of the four classes of the first [except] clause. *)
Variable named_E : E -> bool.
Variable named_X : X -> bool.

(** Steps of the script: they act on the ledger, leave effects, and
    return or raise. *)
Definition step (A : Type) : Type :=
  W -> W * list (effect E V P X) * (exn E P X + A).

Definition ret {A} (a : A) : step A := fun w => (w, [], inr a).

Definition raise {A} (e : exn E P X) : step A := fun w => (w, [], inl e).

Definition bind {A B} (m : step A) (k : A -> step B) : step B :=
  fun w =>
    match m w with
    | (w1, efs1, inl e) => (w1, efs1, inl e)
    | (w1, efs1, inr a) =>
        let '(w2, efs2, res) := k a w1 in (w2, efs1 ++ efs2, res)
    end.

Definition print (l : line E V P X) : step unit :=
  fun w => (w, [Out l], inr tt).

Definition effect_of (ef : effect E V P X) : step unit :=
  fun w => (w, [ef], inr tt).

Notation "x <- m ;; k" := (bind m (fun x => k))
  (at level 100, m at next level, right associativity).
Notation "m ;;; k" := (bind m (fun _ => k))
  (at level 100, right associativity).

(** [validate_address] of web3.py. *)
Definition validate_address (address : string) : step string :=
  if negb (is_address address) then raise (ValueError address)
  else ret (to_checksum_address address).

(** [RPC_URL = os.environ.get("MONAD_RPC_URL", DEFAULT_RPC_URL)]. *)
Definition RPC_URL : string :=
  match environ_rpc_url with
  | Some url => url
  | None => DEFAULT_RPC_URL
  end.

(** [get_web3_connection] of web3.py; the connection it returns is the
    ledger itself. *)
Definition get_web3_connection (rpc_url : option string) : step unit :=
  let url :=
    match rpc_url with
    | Some u => if String.eqb u "" then RPC_URL else u
    | None => RPC_URL
    end in
  fun w =>
    match is_connected url w with
    | (w1, false) => (w1, [], inl (ConnectionError url))
    | (w1, true) => (w1, [], inr tt)
    end.

(** The fetch with the defaults of web3.py, its events among the
    effects. *)
Definition fetch_token_data (address : string) : step (token_data V) :=
  fun w =>
    match fetch_token_data_with_retry PrimFloat.mul time_sleep eth_contract
            call_name call_symbol call_decimals address DEFAULT_MAX_RETRIES
            DEFAULT_RETRY_DELAY DEFAULT_RETRY_BACKOFF w with
    | (w1, tr, inl err) => (w1, map Ledger tr, inl (FetchError err))
    | (w1, tr, inr data) => (w1, map Ledger tr, inr data)
    end.

Definition get_mainnet_directory : step P :=
  let mainnet_dir := truediv script_parent "mainnet" in
  if negb (is_dir mainnet_dir) then raise (FileNotFoundError mainnet_dir)
  else ret mainnet_dir.

Definition create_token_directory (mainnet_dir : P) (data : token_data V)
  : step P :=
  match as_str (symbol data) with
  | None => raise TypeError
  | Some symbol =>
      let token_dir := truediv mainnet_dir symbol in
      if path_exists token_dir then raise (FileExistsError token_dir)
      else
        match mkdir token_dir with
        | Some x => raise (OsError x)
        | None =>
            effect_of (Mkdir token_dir) ;;;
            let data_file := truediv token_dir "data.json" in
            match open_w data_file with
            | Some x => raise (OsError x)
            | None =>
                effect_of (OpenW data_file) ;;;
                match json_dump data with
                | Some x => raise (OsError x)
                | None =>
                    effect_of (Written data_file data) ;;;
                    ret token_dir
                end
            end
        end
  end.

(** The body of the [try] of [main]. *)
Definition add_token (address : string) : step Z :=
  print (LValidating address) ;;;
  address <- validate_address address ;;
  print (LChecksummed address) ;;;
  get_web3_connection None ;;;
  print LConnected ;;;
  print (LFetching address) ;;;
  data <- fetch_token_data address ;;
  print LTokenFound ;;;
  print (LName (name data)) ;;;
  print (LSymbol (symbol data)) ;;;
  print (LDecimals (decimals data)) ;;;
  mainnet_dir <- get_mainnet_directory ;;
  print LCreating ;;;
  token_dir <- create_token_directory mainnet_dir data ;;
  print LAdded ;;;
  print (LDirectory token_dir) ;;;
  print (LDataFile (truediv token_dir "data.json")) ;;;
  print (LNote (symbol data)) ;;;
  ret 0.

(** The class test of the first [except] clause. *)
Definition named (e : exn E P X) : bool :=
  match e with
  | ValueError _ | ConnectionError _ | FileNotFoundError _
  | FileExistsError _ => true
  | TypeError => false
  | FetchError (Propagated e) => named_E e
  | FetchError (Exhausted _) => false
  | OsError x => named_X x
  end.

(** [main]: [arg_address] is [args.address]; [prompted] is what
    [input(...).strip()] gives when it is asked, [None] when [input]
    raises. *)
Definition main (arg_address : option string) (prompted : option string)
    (w : W) : W * list (effect E V P X) * outcome :=
  let given :=
    match arg_address with
    | Some a => if String.eqb a "" then None else Some a
    | None => None
    end in
  let asked :=
    match given with
    | Some a => Some a
    | None => prompted
    end in
  match asked with
  | None => (w, [], InputRaised)
  | Some address =>
      if String.eqb address "" then (w, [Out LNoAddress], Return 1)
      else
        match add_token address w with
        | (w1, efs, inr code) => (w1, efs, Return code)
        | (w1, efs, inl e) =>
            (w1,
             efs ++ [Out (if named e then LError e else LUnexpected e)],
             Return 1)
        end
  end.

(** *** Reading a run *)

Definition ledger_events (efs : list (effect E V P X))
  : list (event E V PrimFloat.float) :=
  flat_map (fun ef => match ef with Ledger ev => [ev] | _ => [] end) efs.

Definition touches_files (ef : effect E V P X) : bool :=
  match ef with
  | Mkdir _ | OpenW _ | Written _ _ => true
  | _ => false
  end.

Definition records_written (efs : list (effect E V P X))
  : list (P * token_data V) :=
  flat_map
    (fun ef => match ef with Written file data => [(file, data)] | _ => [] end)
    efs.

(** The shape of a run of the body of the [try] on [addr]: everything up
    to the making of the token directory is in [pre], which holds the
    whole fetch, within the default budget, and touches no file; [post]
    holds what was done to the files and the closing lines.  Either the
    run raised before it touched a file, or the record [data] was
    fetched for the checksummed address and the token directory, named
    by the symbol, was made: then opening the data file raised, or
    writing it did, or the record was written and the run returned 0. *)
Definition run_shape (addr : string) (efs : list (effect E V P X))
    (res : exn E P X + Z) : Prop :=
  exists pre post,
    efs = pre ++ post /\
    existsb touches_files pre = false /\
    records_written pre = [] /\
    ledger_events post = [] /\
    (count_calls (ledger_events pre) <= 9)%nat /\
    (List.length (sleep_delays (ledger_events pre)) <= 6)%nat /\
    Forall (fun x => x = 1%float \/ x = 2%float)
      (sleep_delays (ledger_events pre)) /\
    ((post = [] /\ exists e, res = inl e) \/
     exists data s,
       is_address addr = true /\
       chainId data = 143 /\
       address data = to_checksum_address addr /\
       returned_by "fetch name" (ledger_events pre) = [name data] /\
       returned_by "fetch symbol" (ledger_events pre) = [symbol data] /\
       returned_by "fetch decimals" (ledger_events pre) = [decimals data] /\
       is_dir (truediv script_parent "mainnet") = true /\
       as_str (symbol data) = Some s /\
       path_exists (truediv (truediv script_parent "mainnet") s) = false /\
       mkdir (truediv (truediv script_parent "mainnet") s) = None /\
       ((post = [Mkdir (truediv (truediv script_parent "mainnet") s)] /\
         exists x, res = inl (OsError x)) \/
        (post = [Mkdir (truediv (truediv script_parent "mainnet") s);
                 OpenW (truediv (truediv (truediv script_parent "mainnet") s)
                          "data.json")] /\
         exists x, res = inl (OsError x)) \/
        (post = [Mkdir (truediv (truediv script_parent "mainnet") s);
                 OpenW (truediv (truediv (truediv script_parent "mainnet") s)
                          "data.json");
                 Written (truediv (truediv (truediv script_parent "mainnet") s)
                            "data.json") data;
                 Out LAdded;
                 Out (LDirectory (truediv (truediv script_parent "mainnet") s));
                 Out (LDataFile
                        (truediv (truediv (truediv script_parent "mainnet") s)
                           "data.json"));
                 Out (LNote (symbol data))] /\
         res = inr 0))).

End Script.

End AddToken.

(** ** What the directory scripts are expected to leave behind *)

Module Reports.
Import Py.

(** The lines of the validation run for one record file: what
    [is_valid_file] printed for it, then its verdict. *)
Definition record_report (printed : list line * (pyexn + bool))
    (filename : string) : list line :=
  fst printed
  ++ [match snd printed with
      | inr true => LValid filename
      | _ => LInvalid filename
      end].

(** The registry document for a timestamp and a token list: the dict
    literal of [generate_tokenlists_file.main], keys in its order. *)
Definition registry_document (now : string) (tokens : list json) : json :=
  JObj
    [("name", JStr "Monad Mainnet");
     ("logoURI",
      JStr "https://raw.githubusercontent.com/monad-crypto/token-list/refs/heads/main/assets/monad.svg");
     ("keywords", JList [JStr "monad mainnet"]);
     ("timestamp", JStr now);
     ("tokens", JList tokens);
     ("version",
      JObj [("major", JInt 0); ("minor", JInt 0); ("patch", JInt 1)])].

(** [key not in d] for the dict with the items [items]. *)
Definition absent (items : list (string * json)) (key : string) : bool :=
  negb (existsb (String.eqb key) (map fst items)).

End Reports.

(** More ledgers: one that answers every call, one on which the contract
    cannot be made. *)
Module MoreScenarios.
Import Web3Utils Py.

Definition steady_decimals (_ : unit) (w : nat) : nat * (string + string) :=
  (S w, inr "18").

Definition no_contract (_ : string) (w : nat) : nat * (string + unit) :=
  (w, inl "InvalidAddress").


(** The staging directory with one more file, which holds a list. *)
Definition staged_more (filepath : string) : pyexn + json :=
  if String.eqb filepath "mainnet/list.json" then
    inr (JList [JStr "chainId"; JStr "address"; JStr "name"; JStr "symbol";
                JStr "decimals"; JStr "logoURI"])
  else Scenarios.staged filepath.

(** Oracles for a run of the add-token script: a ledger that is up, a
    library that knows one address, paths as strings, a file system that
    has the [mainnet] directory and nothing in it, and raises nothing. *)
Definition connected (_ : string) (w : nat) : nat * bool := (w, true).
Definition known_address (a : string) : bool := String.eqb a "0xabc".
Definition checksummed (_ : string) : string := "0xAbC".
Definition child (p s : string) : string := p ++ "/" ++ s.
Definition always {A : Type} (_ : A) : bool := true.
Definition never {A : Type} (_ : A) : bool := false.
Definition no_error {A : Type} (_ : A) : option string := None.

Definition no_budget_fetch :=
  fetch_token_data_with_retry Z.mul (fun _ w => w) Scenarios.any_contract
    Scenarios.flaky_name Scenarios.flaky_symbol steady_decimals "0xAbC"
    0 1 2 0%nat.

End MoreScenarios.

(** * Properties *)

(** ** The built-ins on small inputs *)

Module BuiltinExamples.
Import Py ValidateTokens.

Example endswith_json :
  map (fun f => endswith f ".json" || endswith f ".jsonc")
    ["a.json"; "a.jsonc"; ".json"; "json"; "a.json5"; "README.md"]
  = [true; true; true; false; false; false].
Proof. reflexivity. Qed.

Example os_path_join_posix :
  map (fun '(a, b) => os_path_join a b)
    [("scripts/../mainnet", "AAA.json"); ("mainnet/", "a"); ("m", "/a");
     ("", "a")]
  = ["scripts/../mainnet/AAA.json"; "mainnet/a"; "/a"; "a"].
Proof. reflexivity. Qed.

Example os_path_basename_posix :
  map os_path_basename ["a/b/c.json"; "c.json"; "a/"; ""]
  = ["c.json"; "c.json"; ""; ""].
Proof. reflexivity. Qed.

Example sorted_code_points :
  sorted ["b"; "a"; "Z"; "ab"; ""; "a"] = [""; "Z"; "a"; "a"; "ab"; "b"].
Proof. reflexivity. Qed.

Example is_valid_address_samples :
  map is_valid_address
    ["0x0000000000000000000000000000000000000000";
     "0XABCDEFabcdef0000000000000000000000000000";
     "0x000000000000000000000000000000000000000g";
     "0x00000000000000000000000000000000000000000";
     "0x"; ""]
  = [true; false; false; false; false; false].
Proof. reflexivity. Qed.

Example contains_samples :
  map (fun data => contains data "chainId")
    [JObj [("chainId", JNull)]; JObj [("chainid", JInt 143)];
     JList [JStr "chainId"]; JList [JInt 143]; JStr "the chainId";
     JInt 143; JNull]
  = [inr true; inr false; inr true; inr false; inr true; inl TypeError;
     inl TypeError].
Proof. reflexivity. Qed.

Example comparisons_samples :
  (ne_int (Val (JInt 143)) 143, ne_int (Val (JFloat 143%float)) 143,
   ne_int (Val (JBool true)) 143, ne_int (Val (JStr "143")) 143,
   lt_int (Val (JFloat 5.5%float)) 6, gt_int (Val (JInt 37)) 36,
   lt_int (Val (JStr "18")) 6)
  = (false, false, true, true, inr true, inr true, inl TypeError).
Proof. reflexivity. Qed.

End BuiltinExamples.

(** ** The retry executor *)

Module RetryFacts.
Import Web3Utils.

Section Loop.
Context {W E V D : Type}.
Variable mul : D -> D -> D.
Variable time_sleep : D -> W -> W.

Lemma delay_after_shift (d b : D) (k : nat) :
  delay_after mul (mul d b) b k = delay_after mul d b (S k).
Proof.
  unfold delay_after. induction k as [|k IH]; simpl; [reflexivity|].
  now rewrite IH.
Qed.



(** One iteration of the loop. *)
Lemma retry_loop_step (func : @operation W E V) (n : Z) (b : D)
    (op : string) (todo : nat) (attempt : Z) (c : D) (last : option E)
    (w : W) :
  retry_loop mul time_sleep func n b op (S todo) attempt c last w
  = match func w with
    | (w1, inr v) => (w1, [EvCall op (inr v)], inr v)
    | (w1, inl e) =>
        if attempt <? n - 1 then
          let '(w2, tr, res) :=
            retry_loop mul time_sleep func n b op todo (attempt + 1)
              (mul c b) (Some e) (time_sleep c w1) in
          (w2, EvCall op (inl e) :: EvSleep c :: tr, res)
        else
          let '(w2, tr, res) :=
            retry_loop mul time_sleep func n b op todo (attempt + 1) c
              (Some e) w1 in
          (w2, EvCall op (inl e) :: tr, res)
    end.
Proof. reflexivity. Qed.


(** With a unit and an associative product, the delay after [k] failed
    attempts is [d * b ^ k]. *)
Variable one : D.
Hypothesis mul_assoc : forall x y z, mul x (mul y z) = mul (mul x y) z.
Hypothesis mul_one_l : forall x, mul one x = x.
Hypothesis mul_one_r : forall x, mul x one = x.




End Loop.

(** C10: with [max_retries <= 0] the loop body never runs: the operation
    is not invoked, nothing sleeps, the world is left as it was, and the
    exhaustion error has no cause. *)
Theorem retry_without_budget {W E V D : Type} (mul : D -> D -> D)
    (time_sleep : D -> W -> W) (func : @operation W E V) (n : Z) (d b : D)
    (op : string) (w : W) :
  n <= 0 ->
  _retry_with_backoff mul time_sleep func n d b op w
    = (w, [], inl (RetryExhausted op n None)).
Proof.
  intros Hn. unfold _retry_with_backoff.
  replace (Z.to_nat n) with 0%nat by lia. reflexivity.
Qed.


Lemma retry_without_budget_witness :
  _retry_with_backoff Z.mul (fun _ w => w)
    (fun w : nat => (S w, @inl nat unit w)) 0 1 2 "fetch name" 0%nat
  = (0%nat, [], inl (RetryExhausted "fetch name" 0 None)).
Proof.
  apply (retry_without_budget Z.mul (fun _ w => w)
           (fun w : nat => (S w, inl w)) 0 1 2 "fetch name" 0%nat).
  lia.
Defined.

End RetryFacts.

(** ** The metadata fetcher *)

Module FetchFacts.
Import Web3Utils.

Section Traces.
Context {E V D : Type}.
Implicit Types (tr : list (event E V D)) (f op : string).



Lemma returned_by_app f tr1 tr2 :
  returned_by f (tr1 ++ tr2) = returned_by f tr1 ++ returned_by f tr2.
Proof.
  induction tr1 as [|ev tr1 IH]; [reflexivity|].
  destruct ev as [g [e|v]|d]; simpl; try exact IH.
  destruct (String.eqb g f); simpl; now rewrite ?IH.
Qed.

Lemma calls_of_cons f (ev : event E V D) tr :
  calls_of f (ev :: tr)
  = ((if is_call_of f ev then 1 else 0) + calls_of f tr)%nat.
Proof. unfold calls_of. simpl. now destruct (is_call_of f ev). Qed.

Lemma failures_of_cons f (ev : event E V D) tr :
  failures_of f (ev :: tr)
  = ((if is_failure_of f ev then 1 else 0) + failures_of f tr)%nat.
Proof. unfold failures_of. simpl. now destruct (is_failure_of f ev). Qed.

(** A field that is never called has no failure, no value and nothing
    to fetch again. *)
Lemma no_calls_no_failures f tr :
  calls_of f tr = 0%nat -> failures_of f tr = 0%nat.
Proof.
  induction tr as [|ev tr IH]; [reflexivity|].
  rewrite calls_of_cons, failures_of_cons.
  destruct ev as [g [e|v]|d]; simpl; try exact IH;
    destruct (String.eqb g f); simpl; try exact IH; discriminate.
Qed.

Lemma no_calls_no_values f tr :
  calls_of f tr = 0%nat -> returned_by f tr = [].
Proof.
  induction tr as [|ev tr IH]; [reflexivity|].
  rewrite calls_of_cons.
  destruct ev as [g [e|v]|d]; simpl; try exact IH;
    destruct (String.eqb g f); simpl; try exact IH; discriminate.
Qed.

Lemma no_calls_never_refetched f tr :
  calls_of f tr = 0%nat -> never_refetched f tr.
Proof.
  induction tr as [|ev tr IH]; [intros _; exact I|].
  rewrite calls_of_cons.
  destruct ev as [g [e|v]|d]; simpl; try exact IH.
  - destruct (String.eqb g f); simpl; [discriminate | exact IH].
  - destruct (String.eqb_spec g f) as [->|Hne]; simpl; [discriminate|].
    intros H. split; [|apply IH; exact H].
    intros Heq. now elim Hne.
Qed.


End Traces.

Section Budget.
Context {W E V D C : Type}.
Variable mul : D -> D -> D.
Variable time_sleep : D -> W -> W.

(** What the loop leaves in the trace, for any operation. *)
Lemma retry_loop_trace (func : @operation W E V) (n : Z) (b : D)
    (op : string) :
  forall (todo : nat) (attempt : Z) (c : D) (last : option E) (w : W)
         w' tr res,
    retry_loop mul time_sleep func n b op todo attempt c last w
      = (w', tr, res) ->
    (forall f, f <> op -> calls_of f tr = 0%nat) /\
    (calls_of op tr <= todo)%nat /\
    never_refetched op tr /\
    match res with
    | inr v => returned_by op tr = [v] /\ (failures_of op tr < todo)%nat
    | inl r =>
        returned_by op tr = [] /\
        failures_of op tr = todo /\
        failed_operation r = op /\
        attempts r = n /\
        match todo with
        | O => cause r = last /\ tr = []
        | S _ => attempt + Z.of_nat todo = n ->
                 exists e pre,
                   cause r = Some e /\ tr = pre ++ [EvCall op (inl e)]
        end
    end.
Proof.
  induction todo as [|todo IH]; intros attempt c last w w' tr res Hrun.
  - injection Hrun as <- <- <-. simpl. repeat split; auto.
  - rewrite RetryFacts.retry_loop_step in Hrun.
    destruct (func w) as [w1 [e|v]].
    + assert (Hrec : exists c' w1' mid tr',
                 retry_loop mul time_sleep func n b op todo (attempt + 1) c'
                   (Some e) w1' = (w', tr', res) /\
                 tr = EvCall op (inl e) :: mid ++ tr' /\
                 (mid = [EvSleep c] /\ attempt < n - 1 \/ mid = [])).
      { destruct (attempt <? n - 1) eqn:Hlt.
        - destruct (retry_loop mul time_sleep func n b op todo (attempt + 1)
                      (mul c b) (Some e) (time_sleep c w1))
            as [[w2 tr2] res2] eqn:Hrec.
          injection Hrun as <- <- <-. apply Z.ltb_lt in Hlt.
          exists (mul c b), (time_sleep c w1), [EvSleep c], tr2. auto.
        - destruct (retry_loop mul time_sleep func n b op todo (attempt + 1)
                      c (Some e) w1) as [[w2 tr2] res2] eqn:Hrec.
          injection Hrun as <- <- <-.
          exists c, w1, [], tr2. auto. }
      clear Hrun. destruct Hrec as (c' & w1' & mid & tr' & Hrec & -> & Hmid).
      apply IH in Hrec. destruct Hrec as (Hother & Hcalls & Hnever & Hres).
      assert (Hc : forall f, calls_of f (EvCall op (inl e) :: mid ++ tr')
                             = ((if String.eqb op f then 1 else 0)
                                + calls_of f tr')%nat)
        by (intros f; destruct Hmid as [[-> _]| ->]; rewrite !calls_of_cons;
            reflexivity).
      assert (Hf : failures_of op (EvCall op (inl e) :: mid ++ tr')
                   = S (failures_of op tr'))
        by (destruct Hmid as [[-> _]| ->]; rewrite !failures_of_cons; simpl;
            rewrite String.eqb_refl; reflexivity).
      assert (Hr : returned_by op (EvCall op (inl e) :: mid ++ tr')
                   = returned_by op tr')
        by (destruct Hmid as [[-> _]| ->]; reflexivity).
      assert (Hn : never_refetched op (EvCall op (inl e) :: mid ++ tr'))
        by (destruct Hmid as [[-> _]| ->]; exact Hnever).
      split; [|split; [|split; [exact Hn|]]].
      * intros f Hne. rewrite Hc, (Hother f Hne).
        destruct (String.eqb_spec op f) as [->|_]; [now elim Hne|reflexivity].
      * rewrite Hc, String.eqb_refl. lia.
      * rewrite Hr, Hf. destruct res as [r|v].
        -- destruct Hres as (Hret & Hfail & Hop & Hatt & Hcause).
           repeat split; auto.
           intros Hbudget. destruct todo as [|todo'].
           ++ destruct Hcause as [Hcause ->]. exists e, [].
              split; [exact Hcause|].
              destruct Hmid as [[_ Hlt]| ->]; [lia|reflexivity].
           ++ destruct Hcause as (e' & pre & Hcause & ->); [lia|].
              exists e', (EvCall op (inl e) :: mid ++ pre).
              split; [exact Hcause|].
              simpl. now rewrite app_assoc.
        -- destruct Hres as [Hret Hfail]. split; [exact Hret|lia].
    + injection Hrun as <- <- <-.
      split; [|split; [|split]].
      * intros f Hne. rewrite calls_of_cons. simpl.
        destruct (String.eqb_spec op f) as [->|_]; [now elim Hne|reflexivity].
      * rewrite calls_of_cons. simpl. rewrite String.eqb_refl.
        unfold calls_of. simpl. lia.
      * simpl. split; [reflexivity|exact I].
      * simpl. rewrite String.eqb_refl. split; [reflexivity|].
        rewrite failures_of_cons. simpl. unfold failures_of. simpl. lia.
Qed.

Variable eth_contract : string -> W -> W * (E + C).

(** Getting the contract and running one call under the executor is a
    field run. *)
Lemma field_fetch_run (call : C -> W -> W * (E + V)) (address : string)
    (n : Z) (d b : D) (op : string) (w : W) w' tr res :
  bind (contract_at eth_contract address)
    (fun contract => retrying mul time_sleep (call contract) n d b op) w
    = (w', tr, res) ->
  field_run op n tr res.
Proof.
  unfold bind, contract_at, retrying, _retry_with_backoff, field_run.
  destruct (eth_contract address w) as [w1 [e|c]].
  - intros Hrun. injection Hrun as <- <- <-.
    repeat split; auto. apply Nat.le_0_l.
  - destruct (retry_loop mul time_sleep (call c) n b op (Z.to_nat n) 0 d
                None w1) as [[w2 tr2] res2] eqn:Hloop.
    apply retry_loop_trace in Hloop.
    destruct Hloop as (Hother & Hcalls & Hnever & Hres).
    destruct res2 as [r|v]; intros Hrun; injection Hrun as <- <- <-;
      simpl; repeat split; try tauto.
    destruct Hres as (_ & _ & _ & _ & Hcause). intros Hn.
    destruct (Z.to_nat n) as [|todo] eqn:Htodo; [lia|].
    apply Hcause. lia.
Qed.

Variable call_name call_symbol call_decimals : C -> W -> W * (E + V).

Lemma bind_inv {X Y : Type} (m : @fetch W E V D X)
    (k : X -> @fetch W E V D Y) (w : W) w' tr res :
  bind m k w = (w', tr, res) ->
  (exists err, m w = (w', tr, inl err) /\ res = inl err) \/
  (exists x w1 tr1 tr2,
      m w = (w1, tr1, inr x) /\ k x w1 = (w', tr2, res) /\
      tr = tr1 ++ tr2).
Proof.
  unfold bind. destruct (m w) as [[w1 tr1] [err|x]].
  - intros H. injection H as <- <- <-. left. eauto.
  - destruct (k x w1) as [[w2 tr2] res2] eqn:Hk.
    intros H. injection H as <- <- <-. right.
    exists x, w1, tr1, tr2. auto.
Qed.

(** What a field run says about the other fields. *)
Lemma field_run_other (op f : string) (n : Z) (tr : list (event E V D))
    (res : fetch_error E + V) :
  field_run op n tr res -> f <> op ->
  calls_of f tr = 0%nat /\ failures_of f tr = 0%nat /\
  returned_by f tr = [] /\ never_refetched f tr.
Proof.
  intros (Hother & _) Hne. specialize (Hother f Hne).
  auto using no_calls_no_failures, no_calls_no_values,
    no_calls_never_refetched.
Qed.








End Budget.


(** On that scenario: two calls, two values, then two failed calls of
    [decimals()] with one sleep between them. *)
Example flaky_fetch_run :
  Scenarios.flaky_fetch
  = (4%nat,
     [EvCall "fetch name" (inr "Test"); EvCall "fetch symbol" (inr "TST");
      EvCall "fetch decimals" (inl "execution reverted"); EvSleep 1;
      EvCall "fetch decimals" (inl "execution reverted")],
     inl (Exhausted (RetryExhausted "fetch decimals" 2
                       (Some "execution reverted")))).
Proof. reflexivity. Qed.

End FetchFacts.

(** ** The record validator *)

Module ValidateFacts.
Import Py ValidateTokens.

Section Order.
Variable json5_load_file : string -> pyexn + json.
Variable requests_head : pyval -> pyexn + option string.

(** The body of [is_valid_file] is decided by the first check, in the
    order of the specification, that does not pass: without one the
    record is accepted; when that check fails, its line is printed and the
    record rejected; when it raises, so does the validator. *)
Lemma validate_data_first_not_passing (filename : string) (data : json) :
  match first_not_passing requests_head check_order data with
  | None => validate_data requests_head filename data = ([], inr true)
  | Some (d, inr _) =>
      exists l, validate_data requests_head filename data = ([l], inr false) /\
                reported l = Some d
  | Some (d, inl e) => validate_data requests_head filename data = ([], inl e)
  end.
Proof.
  unfold ValidateTokens.validate_data, ValidateTokens.first_not_passing,
    check_order, ValidateTokens.check.
  destruct (missing_of data REQUIRED_FIELDS) as [e|[|m ms]]; simpl; eauto.
  destruct (get data "chainId" (TypeObject "int")) as [e|v]; simpl; eauto.
  destruct (ne_int v 143); simpl; eauto.
  destruct (get data "address" (TypeObject "str")) as [e|a]; simpl; eauto.
  destruct (call_is_valid_address a) as [e|[|]]; simpl; eauto.
  destruct (get data "logoURI" (TypeObject "str")) as [e|u]; simpl; eauto.
  destruct (is_url_image requests_head u) as [e|[|]]; simpl; eauto.
  destruct (get data "decimals" (TypeObject "int")) as [e|n]; simpl; eauto.
  destruct (lt_int n 6) as [e|[|]]; simpl; eauto.
  destruct (gt_int n 36) as [e|[|]]; simpl; eauto.
Qed.


(** The first check that does not pass is the only one with these
    properties. *)
Lemma first_not_passing_unique (checks : list defect) (data : json)
    before d after r :
  checks = before ++ d :: after ->
  (forall d', In d' before -> check requests_head d' data = inr true) ->
  check requests_head d data = r -> r <> inr true ->
  first_not_passing requests_head checks data = Some (d, r).
Proof.
  intros -> Hbefore Hd Hne.
  induction before as [|d0 before IH]; simpl.
  - rewrite Hd. destruct r as [e|[|]]; congruence.
  - rewrite (Hbefore d0) by (left; reflexivity).
    apply IH. intros d' Hin. apply Hbefore. now right.
Qed.


(** When the first check that does not pass raises, the validator raises
    the same exception and prints nothing. *)
Lemma validation_raises (filepath : string) (data : json) before d after e :
  json5_load_file filepath = inr data ->
  check_order = before ++ d :: after ->
  (forall d', In d' before -> check requests_head d' data = inr true) ->
  check requests_head d data = inl e ->
  is_valid_file json5_load_file requests_head filepath = ([], inl e).
Proof.
  intros Hload Horder Hbefore Hd. unfold is_valid_file. rewrite Hload.
  pose proof (validate_data_first_not_passing (os_path_basename filepath) data)
    as Hrun.
  rewrite (first_not_passing_unique check_order data before d after
             (inl e) Horder Hbefore Hd) in Hrun by discriminate.
  exact Hrun.
Qed.


End Order.



(** *** The run over the directory *)

Section Run.
Variable json5_load_file : string -> pyexn + json.
Variable requests_head : pyval -> pyexn + option string.


(** When no check raises, every record file gets its verdict line. *)
Lemma validate_all_reports_all (base_dir : string) (json_files : list string) :
  (forall f, In f json_files ->
     exists b,
       snd (is_valid_file json5_load_file requests_head
              (os_path_join base_dir f)) = inr b) ->
  snd (validate_all json5_load_file requests_head base_dir json_files)
  = Returns None /\
  forall f, In f json_files ->
    In (LValid f)
      (fst (validate_all json5_load_file requests_head base_dir json_files))
    \/
    In (LInvalid f)
      (fst (validate_all json5_load_file requests_head base_dir json_files)).
Proof.
  induction json_files as [|f files IH]; intros Hret; simpl.
  - split; [reflexivity|intros f []].
  - destruct (Hret f (or_introl eq_refl)) as [b Hb].
    destruct (is_valid_file json5_load_file requests_head
                (os_path_join base_dir f)) as [out r]. simpl in Hb. subst r.
    destruct IH as [Hend Hall]; [intros g Hg; apply Hret; now right|].
    destruct (validate_all json5_load_file requests_head base_dir files)
      as [out' t]. simpl in *. split; [exact Hend|].
    intros g [<-|Hg].
    + destruct b; [left|right]; apply in_or_app; right; left; reflexivity.
    + destruct (Hall g Hg) as [H|H]; [left|right];
        apply in_or_app; right; right; exact H.
Qed.


End Run.


(** C5 on a directory with two records, the first of which has a logo on
    a host that is down: [requests.head] raises, nothing catches the
    exception, and the run ends there.  No verdict is printed for either
    record, and the second one is never looked at. *)
Lemma validation_halts_on_unreachable_logo :
  main Scenarios.staged Scenarios.probe "mainnet"
    (Some ["no_logo.json"; "down.json"])
  = ([LValidating 2], Uncaught (OtherError "ConnectionError")).
Proof. reflexivity. Qed.

(** With a logo that answers with another content type, the same
    directory is reported record by record. *)
Example validation_reports_both :
  main Scenarios.staged Scenarios.probe "mainnet"
    (Some ["no_logo.json"; "two_defects.json"])
  = ([LValidating 2;
      LMissing "no_logo.json" ["logoURI"]; LInvalid "no_logo.json";
      LInvalidChainId; LInvalid "two_defects.json"],
     Returns None).
Proof. reflexivity. Qed.

(** *** The address check *)

Lemma prefix_empty (s : string) : String.prefix "" s = true.
Proof. destruct s; reflexivity. Qed.

Lemma substring_all (s : string) : substring 0 (String.length s) s = s.
Proof. induction s as [|c s IH]; simpl; [reflexivity|]. now rewrite IH. Qed.

(** On a string that starts with [0x], the check looks at the payload
    only: 40 characters, each of them a hexadecimal digit of either case. *)
Lemma is_valid_address_payload (p : string) :
  is_valid_address ("0x" ++ p)
  = (String.length p =? 40)%nat
    && all_chars (fun c => char_in c hex_digits) p.
Proof.
  unfold is_valid_address, startswith, slice_from. simpl.
  rewrite prefix_empty, Nat.sub_0_r, substring_all. reflexivity.
Qed.

Lemma lower_length (s : string) : String.length (lower s) = String.length s.
Proof. induction s as [|c s IH]; simpl; congruence. Qed.

Lemma hex_digit_lower (c : ascii) :
  char_in (lower_char c) hex_digits = char_in c hex_digits.
Proof. destruct c as [[] [] [] [] [] [] [] []]; reflexivity. Qed.

Lemma all_hex_lower (s : string) :
  all_chars (fun c => char_in c hex_digits) (lower s)
  = all_chars (fun c => char_in c hex_digits) s.
Proof.
  unfold all_chars. induction s as [|c s IH]; simpl; [reflexivity|].
  now rewrite hex_digit_lower, IH.
Qed.

(** C6, as the code has it: the address check does not look at the case
    of the payload's letters.  Two strings [0x...] whose payloads differ
    in case only get the same verdict, so every casing of an accepted
    address is accepted. *)
Theorem is_valid_address_any_casing (p q : string) :
  lower p = lower q ->
  is_valid_address ("0x" ++ p) = is_valid_address ("0x" ++ q).
Proof.
  intros Hpq. rewrite !is_valid_address_payload.
  rewrite <- (lower_length p), <- (all_hex_lower p), Hpq.
  now rewrite lower_length, all_hex_lower.
Qed.

Lemma is_valid_address_any_casing_witness :
  is_valid_address ("0x" ++ Scenarios.hex40)
  = is_valid_address ("0x" ++ lower Scenarios.hex40).
Proof.
  apply (is_valid_address_any_casing Scenarios.hex40 (lower Scenarios.hex40)).
  reflexivity.
Defined.

(** C6, as the specification states it, fails: the mixed-case payload
    [hex40] and its lower-case form are two casings of one address, and
    the check accepts both. *)
Lemma one_casing_counterexample :
  ~ (forall p q,
       lower p = lower q ->
       is_valid_address ("0x" ++ p) = true ->
       is_valid_address ("0x" ++ q) = true ->
       p = q).
Proof.
  intros Hone.
  specialize (Hone Scenarios.hex40 (lower Scenarios.hex40)
                eq_refl eq_refl eq_refl).
  discriminate Hone.
Qed.

End ValidateFacts.

(** ** The registry aggregator *)

Module GenerateFacts.
Import Py GenerateTokenlists.

(** *** [sorted] *)

Lemma leb_refl (a : string) : String.leb a a = true.
Proof. destruct (String.leb_total a a); assumption. Qed.

Lemma compare_cons (x y : ascii) (a b : string) :
  String.compare (String x a) (String y b)
  = match N.compare (N_of_ascii x) (N_of_ascii y) with
    | Eq => String.compare a b
    | ne => ne
    end.
Proof. reflexivity. Qed.

Lemma leb_trans (a b c : string) :
  String.leb a b = true -> String.leb b c = true -> String.leb a c = true.
Proof.
  unfold String.leb. revert b c.
  induction a as [|x a IH]; intros [|y b] [|z c]; simpl; try congruence.
  fold (String.compare a b) (String.compare b c) (String.compare a c).
  unfold Ascii.compare.
  destruct (N.compare_spec (N_of_ascii x) (N_of_ascii y)) as [Hxy|Hxy|Hxy];
    destruct (N.compare_spec (N_of_ascii y) (N_of_ascii z)) as [Hyz|Hyz|Hyz];
    destruct (N.compare_spec (N_of_ascii x) (N_of_ascii z)) as [Hxz|Hxz|Hxz];
    try congruence; try lia.
  apply IH.
Qed.

Lemma insert_sorted_perm (x : string) (l : list string) :
  Permutation (x :: l) (insert_sorted x l).
Proof.
  induction l as [|y l IH]; simpl; [reflexivity|].
  destruct (String.leb x y); [reflexivity|].
  rewrite perm_swap. now apply perm_skip.
Qed.

Lemma sorted_perm (l : list string) : Permutation l (sorted l).
Proof.
  induction l as [|x l IH]; simpl; [reflexivity|].
  rewrite <- insert_sorted_perm. now apply perm_skip.
Qed.

Lemma insert_sorted_sorted (x : string) (l : list string) :
  StronglySorted str_le l -> StronglySorted str_le (insert_sorted x l).
Proof.
  induction l as [|y l IH]; intros Hl; simpl.
  - constructor; constructor.
  - inversion_clear Hl as [|? ? Htail Hhead].
    destruct (String.leb x y) eqn:Hxy.
    + constructor; [constructor; assumption|].
      constructor; [exact Hxy|].
      eapply Forall_impl; [|exact Hhead].
      intros z Hz. exact (leb_trans x y z Hxy Hz).
    + constructor; [apply IH; exact Htail|].
      rewrite <- insert_sorted_perm. constructor; [|exact Hhead].
      destruct (String.leb_total x y) as [H|H]; [congruence|exact H].
Qed.

Lemma sorted_sorted (l : list string) : StronglySorted str_le (sorted l).
Proof.
  induction l as [|x l IH]; simpl; [constructor|].
  now apply insert_sorted_sorted.
Qed.

(** Two sorted lists with the same elements are the same list. *)
Lemma sorted_unique (l1 l2 : list string) :
  StronglySorted str_le l1 -> StronglySorted str_le l2 ->
  Permutation l1 l2 -> l1 = l2.
Proof.
  revert l2. induction l1 as [|x l1 IH]; intros l2 H1 H2 Hperm.
  - now apply Permutation_nil in Hperm.
  - destruct l2 as [|y l2];
      [apply Permutation_sym, Permutation_nil in Hperm; discriminate|].
    inversion_clear H1 as [|? ? Ht1 Hh1].
    inversion_clear H2 as [|? ? Ht2 Hh2].
    assert (Hxy : x = y).
    { assert (Hx : In x (y :: l2))
        by (eapply Permutation_in; [exact Hperm|now left]).
      assert (Hy : In y (x :: l1))
        by (eapply Permutation_in;
            [apply Permutation_sym; exact Hperm|now left]).
      destruct Hx as [->|Hx]; [reflexivity|].
      destruct Hy as [->|Hy]; [reflexivity|].
      rewrite Forall_forall in Hh1, Hh2.
      apply String.leb_antisym; [apply Hh1; exact Hy|apply Hh2; exact Hx]. }
    subst y. f_equal. apply IH; try assumption.
    eapply Permutation_cons_inv. exact Hperm.
Qed.

(** [sorted] does not depend on the order of its argument. *)
Lemma sorted_permutation_invariant (l1 l2 : list string) :
  Permutation l1 l2 -> sorted l1 = sorted l2.
Proof.
  intros Hperm. apply sorted_unique; try apply sorted_sorted.
  rewrite <- !sorted_perm. exact Hperm.
Qed.

Lemma filter_sorted (f : string -> bool) (l : list string) :
  StronglySorted str_le l -> StronglySorted str_le (filter f l).
Proof.
  induction 1 as [|x l Hl IH Hx]; simpl; [constructor|].
  destruct (f x); [|exact IH].
  constructor; [exact IH|].
  rewrite Forall_forall in *. intros y Hy.
  apply filter_In in Hy. apply Hx. tauto.
Qed.

Lemma filter_perm (f : string -> bool) (l1 l2 : list string) :
  Permutation l1 l2 -> Permutation (filter f l1) (filter f l2).
Proof.
  induction 1 as [|x l1 l2 H IH|x y l|l1 l2 l3 H1 IH1 H2 IH2]; simpl.
  - constructor.
  - destruct (f x); [now constructor|exact IH].
  - destruct (f x), (f y); try reflexivity. apply perm_swap.
  - now transitivity (filter f l2).
Qed.

(** *** The run over the directory *)

Section Run.
Variable json5_load_file : string -> pyexn + json.
Variable open_w : string -> option pyexn.
Variable json5_dump : string -> json -> option pyexn.

(** When every file loads, the loop appends the records in the order of
    the files. *)
Lemma load_tokens_all (base_dir : string) (json_files : list string) :
  (forall f, In f json_files ->
     exists t, json5_load_file (os_path_join base_dir f) = inr t) ->
  forall acc,
  exists tokens,
    Forall2 (fun f t => json5_load_file (os_path_join base_dir f) = inr t)
      json_files tokens /\
    load_tokens json5_load_file base_dir json_files acc = inr (acc ++ tokens).
Proof.
  induction json_files as [|f files IH]; intros Hall acc; simpl.
  - exists []. split; [constructor|now rewrite app_nil_r].
  - destruct (Hall f (or_introl eq_refl)) as [t Ht]. rewrite Ht.
    destruct (IH (fun g Hg => Hall g (or_intror Hg)) (acc ++ [t]))
      as (tokens & Hfor & Hload).
    exists (t :: tokens). split; [now constructor|].
    rewrite Hload, <- app_assoc. reflexivity.
Qed.

(** When some file does not load, the loop stops at the first such file
    and hands back its path and the exception. *)
Lemma load_tokens_stops (base_dir : string) (json_files : list string)
    (f : string) (e : pyexn) :
  In f json_files ->
  json5_load_file (os_path_join base_dir f) = inl e ->
  forall acc,
  exists before f' after e',
    json_files = before ++ f' :: after /\
    (forall g, In g before ->
       exists t, json5_load_file (os_path_join base_dir g) = inr t) /\
    json5_load_file (os_path_join base_dir f') = inl e' /\
    load_tokens json5_load_file base_dir json_files acc
    = inl (os_path_join base_dir f', e').
Proof.
  induction json_files as [|g files IH]; intros Hin Hf acc; [destruct Hin|].
  simpl.
  destruct (json5_load_file (os_path_join base_dir g)) as [e'|t] eqn:Hg.
  - exists [], g, files, e'. repeat split; auto. intros g' [].
  - destruct Hin as [->|Hin]; [congruence|].
    destruct (IH Hin Hf (acc ++ [t]))
      as (before & f' & after & e' & -> & Hbefore & Hf' & Hload).
    exists (g :: before), f', after, e'. repeat split; auto.
    intros g' [<-|Hg']; eauto.
Qed.

(** C8: when a record file of the directory does not load, the run
    prints the path of the first such file, in the order of the file
    names, with the exception, and returns.  It opens no output file and
    writes no document, whatever the files before it held. *)
Theorem aggregation_all_or_nothing (now base_dir : string)
    (names : list string) (f : string) (e : pyexn) :
  In f (filter is_record_file (sorted names)) ->
  json5_load_file (os_path_join base_dir f) = inl e ->
  exists before f' after e',
    filter is_record_file (sorted names) = before ++ f' :: after /\
    (forall g, In g before ->
       exists t, json5_load_file (os_path_join base_dir g) = inr t) /\
    json5_load_file (os_path_join base_dir f') = inl e' /\
    main json5_load_file now open_w json5_dump base_dir (Some names)
    = ([Print (LAdding (List.length (filter is_record_file (sorted names))));
        Print (LErrorReading (os_path_join base_dir f') e')],
       Returns (Some false)) /\
    written
      (fst (main json5_load_file now open_w json5_dump base_dir (Some names)))
    = [] /\
    existsb touches_output
      (fst (main json5_load_file now open_w json5_dump base_dir (Some names)))
    = false.
Proof.
  intros Hin Hf.
  destruct (load_tokens_stops base_dir _ f e Hin Hf [])
    as (before & f' & after & e' & Hfiles & Hbefore & Hf' & Hload).
  exists before, f', after, e'.
  assert (Hmain :
    main json5_load_file now open_w json5_dump base_dir (Some names)
    = ([Print (LAdding (List.length (filter is_record_file (sorted names))));
        Print (LErrorReading (os_path_join base_dir f') e')],
       Returns (Some false))).
  { unfold main. rewrite Hload.
    destruct (filter is_record_file (sorted names)); [destruct Hin|].
    reflexivity. }
  rewrite Hmain. repeat split; auto.
Qed.

(** C9: over two listings of one directory, in whatever order the file
    system gives the names, with record files that all load and an output
    file that can be written, the two runs write documents with the same
    fields in the same order and the same values but for the timestamp.
    The token list holds the records of the record files in the order of
    their names. *)
Theorem aggregation_deterministic (now1 now2 base_dir : string)
    (names1 names2 : list string) :
  Permutation names1 names2 ->
  (forall f, In f names1 -> is_record_file f = true ->
     exists t, json5_load_file (os_path_join base_dir f) = inr t) ->
  (exists f, In f names1 /\ is_record_file f = true) ->
  open_w file_out = None ->
  (forall doc, json5_dump file_out doc = None) ->
  exists files tokens,
    StronglySorted str_le files /\
    Permutation files (filter is_record_file names1) /\
    Forall2 (fun f t => json5_load_file (os_path_join base_dir f) = inr t)
      files tokens /\
    written
      (fst (main json5_load_file now1 open_w json5_dump base_dir
              (Some names1)))
    = [JObj
         [("name", JStr "Monad Mainnet");
          ("logoURI",
           JStr "https://raw.githubusercontent.com/monad-crypto/token-list/refs/heads/main/assets/monad.svg");
          ("keywords", JList [JStr "monad mainnet"]);
          ("timestamp", JStr now1);
          ("tokens", JList tokens);
          ("version",
           JObj [("major", JInt 0); ("minor", JInt 0); ("patch", JInt 1)])]]
    /\
    written
      (fst (main json5_load_file now2 open_w json5_dump base_dir
              (Some names2)))
    = [JObj
         [("name", JStr "Monad Mainnet");
          ("logoURI",
           JStr "https://raw.githubusercontent.com/monad-crypto/token-list/refs/heads/main/assets/monad.svg");
          ("keywords", JList [JStr "monad mainnet"]);
          ("timestamp", JStr now2);
          ("tokens", JList tokens);
          ("version",
           JObj [("major", JInt 0); ("minor", JInt 0); ("patch", JInt 1)])]].
Proof.
  intros Hperm Hload (f0 & Hf0 & Hrec0) Hopen Hdump.
  set (files := filter is_record_file (sorted names1)).
  assert (Hfiles : Permutation files (filter is_record_file names1))
    by (apply filter_perm, Permutation_sym, sorted_perm).
  assert (Hall : forall f, In f files ->
            exists t, json5_load_file (os_path_join base_dir f) = inr t).
  { intros f Hf. apply (Permutation_in _ Hfiles) in Hf.
    apply filter_In in Hf. now apply Hload. }
  destruct (load_tokens_all base_dir files Hall []) as (tokens & Hfor & Hrun).
  exists files, tokens.
  split; [apply filter_sorted, sorted_sorted|].
  split; [exact Hfiles|]. split; [exact Hfor|].
  assert (Hne : files <> []).
  { intros Hnil.
    assert (Hin : In f0 files)
      by (apply (Permutation_in _ (Permutation_sym Hfiles)), filter_In; auto).
    rewrite Hnil in Hin. destruct Hin. }
  unfold main. rewrite <- (sorted_permutation_invariant _ _ Hperm).
  fold files. destruct files as [|f files'] eqn:Hf; [now elim Hne|].
  rewrite Hrun, Hopen, !Hdump. split; reflexivity.
Qed.

End Run.

(** A directory whose second record file, in the order of the names, is
    cut short: the run names it and writes nothing. *)
Lemma aggregation_all_or_nothing_witness :
  exists before f' after e',
    filter is_record_file (sorted ["broken.json"; "README.md"; "AAA.json"])
    = before ++ f' :: after /\
    (forall g, In g before ->
       exists t, Scenarios.staged (os_path_join "mainnet" g) = inr t) /\
    Scenarios.staged (os_path_join "mainnet" f') = inl e' /\
    main Scenarios.staged "2026-01-01T00:00:00+00:00" Scenarios.open_ok
      Scenarios.dump_ok "mainnet"
      (Some ["broken.json"; "README.md"; "AAA.json"])
    = ([Print (LAdding
                 (List.length
                    (filter is_record_file
                       (sorted ["broken.json"; "README.md"; "AAA.json"]))));
        Print (LErrorReading (os_path_join "mainnet" f') e')],
       Returns (Some false)) /\
    written
      (fst (main Scenarios.staged "2026-01-01T00:00:00+00:00"
              Scenarios.open_ok Scenarios.dump_ok "mainnet"
              (Some ["broken.json"; "README.md"; "AAA.json"])))
    = [] /\
    existsb touches_output
      (fst (main Scenarios.staged "2026-01-01T00:00:00+00:00"
              Scenarios.open_ok Scenarios.dump_ok "mainnet"
              (Some ["broken.json"; "README.md"; "AAA.json"])))
    = false.
Proof.
  apply (aggregation_all_or_nothing Scenarios.staged Scenarios.open_ok
           Scenarios.dump_ok "2026-01-01T00:00:00+00:00" "mainnet"
           ["broken.json"; "README.md"; "AAA.json"] "broken.json"
           (OtherError "Unexpected end of input")).
  - right. left. reflexivity.
  - reflexivity.
Defined.

(** The scenario of the specification: [AAA.json] and [ZZZ.json], listed
    in either order, at two different times. *)
Lemma aggregation_deterministic_witness :
  exists files tokens,
    StronglySorted str_le files /\
    Permutation files (filter is_record_file ["ZZZ.json"; "AAA.json"]) /\
    Forall2 (fun f t => Scenarios.staged (os_path_join "mainnet" f) = inr t)
      files tokens /\
    written
      (fst (main Scenarios.staged "2026-01-01T00:00:00+00:00"
              Scenarios.open_ok Scenarios.dump_ok "mainnet"
              (Some ["ZZZ.json"; "AAA.json"])))
    = [JObj
         [("name", JStr "Monad Mainnet");
          ("logoURI",
           JStr "https://raw.githubusercontent.com/monad-crypto/token-list/refs/heads/main/assets/monad.svg");
          ("keywords", JList [JStr "monad mainnet"]);
          ("timestamp", JStr "2026-01-01T00:00:00+00:00");
          ("tokens", JList tokens);
          ("version",
           JObj [("major", JInt 0); ("minor", JInt 0); ("patch", JInt 1)])]]
    /\
    written
      (fst (main Scenarios.staged "2026-02-02T00:00:00+00:00"
              Scenarios.open_ok Scenarios.dump_ok "mainnet"
              (Some ["AAA.json"; "ZZZ.json"])))
    = [JObj
         [("name", JStr "Monad Mainnet");
          ("logoURI",
           JStr "https://raw.githubusercontent.com/monad-crypto/token-list/refs/heads/main/assets/monad.svg");
          ("keywords", JList [JStr "monad mainnet"]);
          ("timestamp", JStr "2026-02-02T00:00:00+00:00");
          ("tokens", JList tokens);
          ("version",
           JObj [("major", JInt 0); ("minor", JInt 0); ("patch", JInt 1)])]].
Proof.
  apply (aggregation_deterministic Scenarios.staged Scenarios.open_ok
           Scenarios.dump_ok "2026-01-01T00:00:00+00:00"
           "2026-02-02T00:00:00+00:00" "mainnet"
           ["ZZZ.json"; "AAA.json"] ["AAA.json"; "ZZZ.json"]).
  - apply perm_swap.
  - intros f [<-|[<-|[]]] _; eexists; reflexivity.
  - exists "ZZZ.json". split; [left|]; reflexivity.
  - reflexivity.
  - reflexivity.
Defined.

(** On that scenario the token list is [AAA], [ZZZ]. *)
Example aggregation_order :
  written
    (fst (main Scenarios.staged "2026-01-01T00:00:00+00:00"
            Scenarios.open_ok Scenarios.dump_ok "mainnet"
            (Some ["ZZZ.json"; "README.md"; "AAA.json"])))
  = [JObj
       [("name", JStr "Monad Mainnet");
        ("logoURI",
         JStr "https://raw.githubusercontent.com/monad-crypto/token-list/refs/heads/main/assets/monad.svg");
        ("keywords", JList [JStr "monad mainnet"]);
        ("timestamp", JStr "2026-01-01T00:00:00+00:00");
        ("tokens",
         JList [Scenarios.record 143 ("0x" ++ Scenarios.hex40) 18
                  Scenarios.good_logo;
                Scenarios.record 143 ("0x" ++ Scenarios.hex40) 6
                  Scenarios.good_logo]);
        ("version",
         JObj [("major", JInt 0); ("minor", JInt 0); ("patch", JInt 1)])]].
Proof. reflexivity. Qed.

End GenerateFacts.

(** ** The retry executor on any operation *)

Module RetryShape.
Import Web3Utils Web3Traces.

Section Shape.
Context {W E V D : Type}.
Variable mul : D -> D -> D.
Variable time_sleep : D -> W -> W.

Lemma failed_attempts_calls (op : string) (c b : D) (es : list E) :
  @count_calls E V D (failed_attempts mul op c b es) = List.length es.
Proof.
  revert c. induction es as [|e es IH]; intros c; [reflexivity|].
  unfold count_calls in *. simpl. now rewrite IH.
Qed.

Lemma failed_attempts_delays (op : string) (c b : D) (es : list E) :
  @sleep_delays E V D (failed_attempts mul op c b es)
  = map (delay_after mul c b) (seq 0 (List.length es)).
Proof.
  revert c. induction es as [|e es IH]; intros c; [reflexivity|].
  simpl. rewrite IH, <- seq_shift, map_map. f_equal.
  apply map_ext. intros k. apply RetryFacts.delay_after_shift.
Qed.

Lemma count_calls_app (tr1 tr2 : list (event E V D)) :
  count_calls (tr1 ++ tr2) = (count_calls tr1 + count_calls tr2)%nat.
Proof. unfold count_calls. now rewrite filter_app, length_app. Qed.

Lemma sleep_delays_app (tr1 tr2 : list (event E V D)) :
  sleep_delays (tr1 ++ tr2) = sleep_delays tr1 ++ sleep_delays tr2.
Proof.
  induction tr1 as [|ev tr1 IH]; [reflexivity|].
  destruct ev; simpl; now rewrite IH.
Qed.

(** The loop with its counters in step, [attempt + todo = max_retries]:
    the trace is a run of failed attempts with their sleeps and then one
    last call, which returned or was the last one allowed. *)
Lemma retry_loop_shape (func : @operation W E V) (n : Z) (b : D)
    (op : string) :
  forall (todo : nat) (attempt : Z) (c : D) (last : option E) (w : W)
         w' tr res,
    attempt + Z.of_nat (S todo) = n ->
    retry_loop mul time_sleep func n b op (S todo) attempt c last w
      = (w', tr, res) ->
    exists es o,
      tr = failed_attempts mul op c b es ++ [EvCall op o] /\
      match o with
      | inr v => (List.length es <= todo)%nat /\ res = inr v
      | inl e => List.length es = todo /\
                 res = inl (RetryExhausted op n (Some e))
      end.
Proof.
  induction todo as [|todo IH]; intros attempt c last w w' tr res Hn Hrun;
    rewrite RetryFacts.retry_loop_step in Hrun;
    destruct (func w) as [w1 [e|v]].
  - replace (attempt <? n - 1) with false in Hrun
      by (symmetry; apply Z.ltb_ge; lia).
    injection Hrun as <- <- <-. exists [], (inl e). simpl. auto.
  - injection Hrun as <- <- <-. exists [], (inr v). simpl. auto.
  - replace (attempt <? n - 1) with true in Hrun
      by (symmetry; apply Z.ltb_lt; lia).
    destruct (retry_loop mul time_sleep func n b op (S todo) (attempt + 1)
                (mul c b) (Some e) (time_sleep c w1))
      as [[w2 tr2] res2] eqn:Hrec.
    injection Hrun as <- <- <-.
    apply IH in Hrec; [|lia].
    destruct Hrec as (es & o & -> & Ho).
    exists (e :: es), o. split; [reflexivity|].
    destruct o as [e'|v]; simpl; destruct Ho; split; auto; lia.
  - injection Hrun as <- <- <-. exists [], (inr v). simpl.
    split; [reflexivity|]. split; [lia|reflexivity].
Qed.

(** X1: Whenever the executor returns a value, it got there by [k] failed
    attempts, [k] below the budget, each followed by a sleep, and one
    call that returned that value: nothing sleeps after the call that
    succeeded, and the [i]-th sleep lasted the initial delay times the
    backoff [i - 1] times over. *)
Theorem retry_returns_after_failures (func : @operation W E V) (n : Z)
    (d b : D) (op : string) (w : W) w' tr v :
  _retry_with_backoff mul time_sleep func n d b op w = (w', tr, inr v) ->
  exists es,
    (Z.of_nat (List.length es) < n) /\
    tr = failed_attempts mul op d b es ++ [EvCall op (inr v)] /\
    count_calls tr = S (List.length es) /\
    sleep_delays tr = map (delay_after mul d b) (seq 0 (List.length es)).
Proof.
  unfold _retry_with_backoff. intros Hrun.
  destruct (Z.to_nat n) as [|todo] eqn:Htodo; [discriminate Hrun|].
  apply retry_loop_shape in Hrun; [|lia].
  destruct Hrun as (es & o & -> & Ho).
  destruct o as [e|v']; [destruct Ho; discriminate|].
  destruct Ho as [Hlen Hv]. injection Hv as ->.
  exists es. split; [lia|]. split; [reflexivity|].
  rewrite count_calls_app, sleep_delays_app, failed_attempts_calls,
    failed_attempts_delays, app_nil_r.
  split; [|reflexivity]. unfold count_calls. simpl. lia.
Qed.

(** X2: Whatever the operation does, the executor calls it at most
    [max_retries] times, and it sleeps once less than it calls: after
    every call but the last, for the initial delay times the backoff as
    many times over as there were sleeps before. *)
Theorem retry_bounds (func : @operation W E V) (n : Z) (d b : D)
    (op : string) (w : W) :
  (count_calls
     (snd (fst (_retry_with_backoff mul time_sleep func n d b op w)))
   <= Z.to_nat n)%nat /\
  sleep_delays
    (snd (fst (_retry_with_backoff mul time_sleep func n d b op w)))
  = map (delay_after mul d b)
      (seq 0
         (count_calls
            (snd (fst (_retry_with_backoff mul time_sleep func n d b op w)))
          - 1)).
Proof.
  unfold _retry_with_backoff.
  destruct (Z.to_nat n) as [|todo] eqn:Htodo; [split; [apply Nat.le_0_l|reflexivity]|].
  destruct (retry_loop mul time_sleep func n b op (S todo) 0 d None w)
    as [[w' tr] res] eqn:Hrun. simpl.
  apply retry_loop_shape in Hrun; [|lia].
  destruct Hrun as (es & o & -> & Ho).
  rewrite count_calls_app, sleep_delays_app, failed_attempts_calls,
    failed_attempts_delays, app_nil_r.
  replace (List.length es + count_calls [EvCall op o] - 1)%nat
    with (List.length es) by (unfold count_calls; simpl; lia).
  split; [|reflexivity].
  unfold count_calls. simpl. destruct o; destruct Ho; lia.
Qed.

End Shape.

(** An operation that raises twice and then answers, with a budget of
    five. *)
Lemma retry_returns_after_failures_witness :
  exists es : list nat,
    (Z.of_nat (List.length es) < 5) /\
    [EvCall "fetch name" (inl 0%nat); EvSleep 1;
     EvCall "fetch name" (inl 1%nat); EvSleep 2;
     EvCall "fetch name" (inr "Test")]
    = failed_attempts Z.mul "fetch name" 1 2 es
      ++ [EvCall "fetch name" (inr "Test")] /\
    count_calls
      [EvCall "fetch name" (inl 0%nat); EvSleep 1;
       EvCall "fetch name" (inl 1%nat); EvSleep 2;
       EvCall "fetch name" (@inr nat string "Test")]
    = S (List.length es) /\
    sleep_delays
      [EvCall "fetch name" (inl 0%nat); EvSleep 1;
       EvCall "fetch name" (inl 1%nat); EvSleep 2;
       EvCall "fetch name" (@inr nat string "Test")]
    = map (delay_after Z.mul 1 2) (seq 0 (List.length es)).
Proof.
  apply (retry_returns_after_failures Z.mul (fun _ w => w)
           (fun w : nat => (S w, if (w <? 2)%nat then inl w else inr "Test"))
           5 1 2 "fetch name" 0%nat 3%nat).
  reflexivity.
Defined.

End RetryShape.

(** ** The metadata fetcher on any ledger *)

Module FetchMore.
Import Web3Utils FetchFacts.

Section Ledger.
Context {W E V D C : Type}.
Variable mul : D -> D -> D.
Variable time_sleep : D -> W -> W.
Variable eth_contract : string -> W -> W * (E + C).
Variable call_name call_symbol call_decimals : C -> W -> W * (E + V).

(** X3: With a budget of zero or less the fetch never returns a record and
    never calls the contract, whatever the ledger would have answered. *)
Theorem fetch_without_budget (addr : string) (n : Z) (d b : D) (w : W)
    w' tr res :
  n <= 0 ->
  fetch_token_data_with_retry mul time_sleep eth_contract call_name
    call_symbol call_decimals addr n d b w = (w', tr, res) ->
  (forall t, res <> inr t) /\ (forall f, calls_of f tr = 0%nat).
Proof.
  intros Hn Hrun. unfold fetch_token_data_with_retry in Hrun.
  apply bind_inv in Hrun
    as [(err & H1 & ->) | (vn & w1 & t1 & t1' & H1 & Hrun & ->)];
    apply field_fetch_run in H1;
    destruct H1 as (Hother & Hcalls & _ & Hres).
  - split; [discriminate|]. intros f.
    destruct (String.eqb_spec f "fetch name") as [->|Hne];
      [lia|now apply Hother].
  - destruct Hres as [_ Hlt]. lia.
Qed.



(** X5: The fields are fetched one after the other: the trace is the events
    of [name()], then those of [symbol()], then those of [decimals()],
    and a field has events only when the field before it returned a
    value. *)
Theorem fetch_in_order (addr : string) (n : Z) (d b : D) (w : W)
    w' tr res :
  fetch_token_data_with_retry mul time_sleep eth_contract call_name
    call_symbol call_decimals addr n d b w = (w', tr, res) ->
  exists tn ts td,
    tr = tn ++ ts ++ td /\
    (forall f, f <> "fetch name" -> calls_of f tn = 0%nat) /\
    (forall f, f <> "fetch symbol" -> calls_of f ts = 0%nat) /\
    (forall f, f <> "fetch decimals" -> calls_of f td = 0%nat) /\
    (ts <> [] -> exists v, returned_by "fetch name" tn = [v]) /\
    (td <> [] -> exists v, returned_by "fetch symbol" ts = [v]).
Proof.
  intros Hrun. unfold fetch_token_data_with_retry in Hrun.
  apply bind_inv in Hrun
    as [(err & H1 & ->) | (vn & w1 & t1 & t1' & H1 & Hrun & ->)];
    apply field_fetch_run in H1; destruct H1 as (Ho1 & _ & _ & Hr1).
  { exists tr, [], []. rewrite !app_nil_r.
    repeat split; auto; intros H; now elim H. }
  apply bind_inv in Hrun
    as [(err & H2 & ->) | (vs & w2 & t2 & t2' & H2 & Hrun & ->)];
    apply field_fetch_run in H2; destruct H2 as (Ho2 & _ & _ & Hr2).
  { exists t1, t1', []. rewrite !app_nil_r.
    repeat split; auto; [|intros H; now elim H].
    intros _. exists vn. tauto. }
  apply bind_inv in Hrun
    as [(err & H3 & ->) | (vd & w3 & t3 & t3' & H3 & Hrun & ->)];
    apply field_fetch_run in H3; destruct H3 as (Ho3 & _ & _ & Hr3).
  { exists t1, t2, t2'.
    repeat split; auto; intros _; [exists vn|exists vs]; tauto. }
  injection Hrun as <- <- <-. exists t1, t2, t3. rewrite app_nil_r.
  repeat split; auto; intros _; [exists vn|exists vs]; tauto.
Qed.



End Ledger.

Lemma fetch_without_budget_witness :
  (forall t, snd MoreScenarios.no_budget_fetch <> inr t) /\
  (forall f, calls_of f (snd (fst MoreScenarios.no_budget_fetch)) = 0%nat).
Proof.
  apply (fetch_without_budget Z.mul (fun _ w => w) Scenarios.any_contract
           Scenarios.flaky_name Scenarios.flaky_symbol
           MoreScenarios.steady_decimals "0xAbC" 0 1 2 0%nat
           (fst (fst MoreScenarios.no_budget_fetch))).
  - lia.
  - reflexivity.
Defined.

Lemma fetch_in_order_witness :
  exists tn ts td,
    snd (fst Scenarios.flaky_fetch) = tn ++ ts ++ td /\
    (forall f, f <> "fetch name" -> calls_of f tn = 0%nat) /\
    (forall f, f <> "fetch symbol" -> calls_of f ts = 0%nat) /\
    (forall f, f <> "fetch decimals" -> calls_of f td = 0%nat) /\
    (ts <> [] -> exists v, returned_by "fetch name" tn = [v]) /\
    (td <> [] -> exists v, returned_by "fetch symbol" ts = [v]).
Proof.
  apply (fetch_in_order Z.mul (fun _ w => w) Scenarios.any_contract
           Scenarios.flaky_name Scenarios.flaky_symbol
           Scenarios.flaky_decimals "0xAbC" 2 1 2 0%nat
           (fst (fst Scenarios.flaky_fetch)) _ (snd Scenarios.flaky_fetch)).
  reflexivity.
Defined.


End FetchMore.

(** ** The record validator on any file *)

Module ValidateMore.
Import Py ValidateTokens Reports.

(** *** The address check *)

Lemma startswith_0x (s : string) :
  startswith s "0x" = true -> exists p, s = ("0x" ++ p)%string.
Proof.
  unfold startswith. intros H. apply prefix_correct in H.
  destruct s as [|a [|b p]]; simpl in H; try discriminate H.
  injection H as -> -> _. now exists p.
Qed.

(** X7: The address check accepts exactly the strings made of [0x], in lower
    case, and 40 characters that are all among [0123456789ABCDEFabcdef]. *)
Theorem is_valid_address_iff (s : string) :
  is_valid_address s = true
  <-> exists p,
        s = ("0x" ++ p)%string /\ String.length p = 40%nat /\
        forall c, In c (list_ascii_of_string p) ->
                  In c (list_ascii_of_string hex_digits).
Proof.
  split.
  - intros Hs.
    assert (Hp : startswith s "0x" = true).
    { unfold is_valid_address in Hs.
      apply andb_true_iff in Hs as [Hs _].
      apply andb_true_iff in Hs as [Hs _]. exact Hs. }
    destruct (startswith_0x s Hp) as [p ->]. exists p.
    rewrite ValidateFacts.is_valid_address_payload in Hs.
    apply andb_true_iff in Hs as [Hlen Hall].
    split; [reflexivity|]. split; [now apply Nat.eqb_eq|].
    unfold all_chars in Hall. rewrite forallb_forall in Hall.
    intros c Hc. specialize (Hall c Hc). unfold char_in in Hall.
    apply existsb_exists in Hall as (x & Hx & Heq).
    apply Ascii.eqb_eq in Heq. now subst x.
  - intros (p & -> & Hlen & Hall).
    rewrite ValidateFacts.is_valid_address_payload.
    apply andb_true_iff. split; [now apply Nat.eqb_eq|].
    unfold all_chars. apply forallb_forall. intros c Hc.
    unfold char_in. apply existsb_exists. exists c.
    split; [now apply Hall|apply Ascii.eqb_refl].
Qed.

(** *** Records that are dicts, and parsed values that are not *)

Section Records.
Variable json5_load_file : string -> pyexn + json.
Variable requests_head : pyval -> pyexn + option string.

Lemma missing_of_dict (items : list (string * json)) (fields : list string) :
  missing_of (JObj items) fields = inr (filter (absent items) fields).
Proof.
  induction fields as [|f fields IH]; simpl; [reflexivity|].
  rewrite IH. unfold absent.
  destruct (existsb (String.eqb f) (map fst items)); reflexivity.
Qed.

Lemma present_lookup (items : list (string * json)) (key : string) :
  absent items key = false -> exists v, lookup key items = Some v.
Proof.
  unfold absent. rewrite negb_false_iff.
  induction items as [|[k v] items IH]; simpl; [discriminate|].
  rewrite String.eqb_sym.
  destruct (String.eqb k key); simpl; [eauto|exact IH].
Qed.

(** X8: A dict that lacks required keys is rejected with one line that names
    all the keys it lacks, in the order of [REQUIRED_FIELDS], whatever
    else is wrong with it. *)
Theorem missing_fields_reported (filepath : string)
    (items : list (string * json)) :
  json5_load_file filepath = inr (JObj items) ->
  filter (absent items) REQUIRED_FIELDS <> [] ->
  is_valid_file json5_load_file requests_head filepath
  = ([LMissing (os_path_basename filepath)
        (filter (absent items) REQUIRED_FIELDS)], inr false).
Proof.
  intros Hload Hmissing. unfold is_valid_file, validate_data.
  rewrite Hload, missing_of_dict.
  destruct (filter (absent items) REQUIRED_FIELDS); [now elim Hmissing|].
  reflexivity.
Qed.

(** X9: A file that parses to anything but a dict is never accepted: the
    validator reports missing keys or raises. *)
Theorem only_dicts_accepted (filepath : string) (data : json) :
  json5_load_file filepath = inr data ->
  (forall items, data <> JObj items) ->
  snd (is_valid_file json5_load_file requests_head filepath) <> inr true.
Proof.
  intros Hload Hdict. unfold is_valid_file, validate_data. rewrite Hload.
  destruct data as [| | | | s|l|items];
    try (simpl; discriminate); [| |now elim (Hdict items)].
  - destruct (missing_of (JStr s) REQUIRED_FIELDS) as [e|[|m ms]];
      simpl; discriminate.
  - destruct (missing_of (JList l) REQUIRED_FIELDS) as [e|[|m ms]];
      simpl; discriminate.
Qed.

(** X10: What an accepted file holds: a dict with the six keys, where
    [chainId] is the integer 143 or the float 143.0, [address] is a
    string that passes the address check, the probe of [logoURI] answered
    with one of the four image types, and [decimals] is an integer from 6
    to 36, or a float that is neither below 6 nor above 36. *)
Theorem accepted_record (filepath : string) (out : list line) :
  is_valid_file json5_load_file requests_head filepath = (out, inr true) ->
  exists items c a u ct dv vn vs,
    json5_load_file filepath = inr (JObj items) /\
    lookup "chainId" items = Some c /\
    (c = JInt 143 \/
     exists x, c = JFloat x /\ PrimFloat.eqb x 143%float = true) /\
    lookup "address" items = Some (JStr a) /\
    is_valid_address a = true /\
    lookup "name" items = Some vn /\
    lookup "symbol" items = Some vs /\
    lookup "logoURI" items = Some u /\
    requests_head (Val u) = inr (Some ct) /\
    In ct image_formats /\
    lookup "decimals" items = Some dv /\
    ((exists z, dv = JInt z /\ 6 <= z <= 36) \/
     (exists x, dv = JFloat x /\ PrimFloat.ltb x 6%float = false /\
                PrimFloat.ltb 36%float x = false)).
Proof.
  unfold is_valid_file.
  destruct (json5_load_file filepath) as [e|data] eqn:Hload;
    [discriminate|].
  unfold validate_data.
  destruct data as [| | | | s|l|items]; try (simpl; discriminate).
  - destruct (missing_of (JStr s) REQUIRED_FIELDS) as [e|[|m ms]];
      simpl; discriminate.
  - destruct (missing_of (JList l) REQUIRED_FIELDS) as [e|[|m ms]];
      simpl; discriminate.
  - rewrite missing_of_dict.
    destruct (filter (absent items) REQUIRED_FIELDS) as [|m ms] eqn:Hmiss;
      [|discriminate].
    assert (Hpresent : forall f, In f REQUIRED_FIELDS ->
                                 exists v, lookup f items = Some v).
    { intros f Hf. apply present_lookup.
      destruct (absent items f) eqn:Hab; [|reflexivity].
      assert (Hin : In f (filter (absent items) REQUIRED_FIELDS))
        by (apply filter_In; auto).
      rewrite Hmiss in Hin. destruct Hin. }
    destruct (Hpresent "chainId") as [c Hc]; [simpl; tauto|].
    destruct (Hpresent "address") as [av Ha]; [simpl; tauto|].
    destruct (Hpresent "name") as [vn Hvn]; [simpl; tauto|].
    destruct (Hpresent "symbol") as [vs Hvs]; [simpl; tauto|].
    destruct (Hpresent "logoURI") as [u Hu]; [simpl; tauto|].
    destruct (Hpresent "decimals") as [dv Hdv]; [simpl; tauto|].
    unfold get. rewrite Hc, Ha, Hu, Hdv.
    destruct (ne_int (Val c) 143) eqn:Hchain; [discriminate|].
    destruct (call_is_valid_address (Val av)) as [e|[|]] eqn:Haddr;
      try discriminate.
    unfold is_url_image.
    destruct (requests_head (Val u)) as [e|[ct|]] eqn:Hhead;
      try discriminate.
    destruct (existsb (String.eqb ct) image_formats) eqn:Hct;
      [|discriminate].
    destruct (lt_int (Val dv) 6) as [e|[|]] eqn:Hlt; try discriminate.
    destruct (gt_int (Val dv) 36) as [e|[|]] eqn:Hgt; try discriminate.
    intros _.
    destruct av as [| | | |a| |]; simpl in Haddr; try discriminate.
    injection Haddr as Haddr.
    exists items, c, a, u, ct, dv, vn, vs.
    repeat match goal with |- _ /\ _ => split end; auto.
    + destruct c as [|b|z|x| | |]; simpl in Hchain; try discriminate.
      * destruct b; discriminate.
      * left. apply negb_false_iff, Z.eqb_eq in Hchain. now subst z.
      * right. exists x. split; [reflexivity|].
        now apply negb_false_iff in Hchain.
    + apply existsb_exists in Hct as (x & Hx & Heq).
      apply String.eqb_eq in Heq. now subst x.
    + destruct dv as [|b|z|x| | |]; simpl in Hlt, Hgt; try discriminate.
      * destruct b; discriminate.
      * left. exists z. split; [reflexivity|].
        injection Hlt as Hlt. injection Hgt as Hgt. lia.
      * right. exists x. injection Hlt as Hlt. injection Hgt as Hgt. auto.
Qed.

End Records.

Lemma missing_fields_reported_witness :
  is_valid_file Scenarios.staged Scenarios.probe "mainnet/no_logo.json"
  = ([LMissing "no_logo.json" ["logoURI"]], inr false).
Proof.
  apply (missing_fields_reported Scenarios.staged Scenarios.probe
           "mainnet/no_logo.json"
           [("chainId", JInt 143);
            ("address", JStr ("0x" ++ Scenarios.hex40));
            ("name", JStr "Test"); ("symbol", JStr "TST");
            ("decimals", JInt 18)]).
  - reflexivity.
  - discriminate.
Defined.

Lemma only_dicts_accepted_witness :
  snd (is_valid_file MoreScenarios.staged_more Scenarios.probe
         "mainnet/list.json") <> inr true.
Proof.
  apply (only_dicts_accepted MoreScenarios.staged_more Scenarios.probe
           "mainnet/list.json"
           (JList [JStr "chainId"; JStr "address"; JStr "name";
                   JStr "symbol"; JStr "decimals"; JStr "logoURI"])).
  - reflexivity.
  - discriminate.
Defined.

Lemma accepted_record_witness :
  exists items c a u ct dv vn vs,
    Scenarios.staged "mainnet/AAA.json" = inr (JObj items) /\
    lookup "chainId" items = Some c /\
    (c = JInt 143 \/
     exists x, c = JFloat x /\ PrimFloat.eqb x 143%float = true) /\
    lookup "address" items = Some (JStr a) /\
    is_valid_address a = true /\
    lookup "name" items = Some vn /\
    lookup "symbol" items = Some vs /\
    lookup "logoURI" items = Some u /\
    Scenarios.probe (Val u) = inr (Some ct) /\
    In ct image_formats /\
    lookup "decimals" items = Some dv /\
    ((exists z, dv = JInt z /\ 6 <= z <= 36) \/
     (exists x, dv = JFloat x /\ PrimFloat.ltb x 6%float = false /\
                PrimFloat.ltb 36%float x = false)).
Proof.
  apply (accepted_record Scenarios.staged Scenarios.probe "mainnet/AAA.json"
           []).
  reflexivity.
Defined.

(** *** The run over the directory *)

Lemma contains_slash_cons (c : ascii) (s : string) :
  str_contains (String c s) "/" = Ascii.eqb c "/" || str_contains s "/".
Proof.
  unfold str_contains. cbn [index prefix].
  destruct (ascii_dec "/" c) as [<-|Hne].
  - destruct s; reflexivity.
  - destruct (Ascii.eqb_spec c "/") as [->|_]; [now elim Hne|].
    simpl. destruct (index 0 "/" s); reflexivity.
Qed.

Lemma contains_slash_app (x f : string) :
  str_contains (x ++ "/" ++ f) "/" = true.
Proof.
  induction x as [|c x IH].
  - change ("" ++ "/" ++ f)%string with (String "/" f).
    rewrite contains_slash_cons. reflexivity.
  - change (String c x ++ "/" ++ f)%string with (String c (x ++ "/" ++ f)).
    rewrite contains_slash_cons, IH. apply orb_true_r.
Qed.

Lemma basename_no_slash (f : string) :
  str_contains f "/" = false -> os_path_basename f = f.
Proof. destruct f as [|c f]; simpl; [reflexivity|]. now intros ->. Qed.

Lemma basename_after_slash (x f : string) :
  str_contains f "/" = false -> os_path_basename (x ++ "/" ++ f) = f.
Proof.
  intros Hf. induction x as [|c x IH].
  - change ("" ++ "/" ++ f)%string with (String "/" f).
    cbn [os_path_basename]. rewrite contains_slash_cons. simpl.
    now apply basename_no_slash.
  - change (String c x ++ "/" ++ f)%string with (String c (x ++ "/" ++ f)).
    cbn [os_path_basename].
    rewrite contains_slash_cons, contains_slash_app, orb_true_r. exact IH.
Qed.

Lemma append_assoc (a b c : string) :
  ((a ++ b) ++ c = a ++ b ++ c)%string.
Proof. induction a as [|x a IH]; simpl; congruence. Qed.

Lemma endswith_slash (a : string) :
  endswith a "/" = true -> exists x, a = (x ++ "/")%string.
Proof.
  unfold endswith. induction a as [|c a IH]; [discriminate|].
  destruct a as [|c' a'].
  - simpl. destruct (Ascii.eqb_spec c "/") as [->|]; [|discriminate].
    intros _. now exists "".
  - intros H. destruct IH as [x Hx].
    + apply andb_true_iff in H as [_ H]. apply andb_true_iff.
      split; [reflexivity|].
      change (String.length (String c (String c' a')))
        with (S (String.length (String c' a'))) in H.
      change (String.length (String c' a')) with (S (String.length a')) in *.
      change (String.length "/") with 1%nat in *.
      replace (S (S (String.length a')) - 1)%nat
        with (S (S (String.length a') - 1))%nat in H by lia.
      exact H.
    + exists (String c x). simpl. now rewrite <- Hx.
Qed.

(** X11: A name that [os.listdir] gives holds no [/]; joined to the directory
    and split again it comes back as it was, so the validator prints
    every file under the name the directory lists it by. *)
Theorem basename_of_joined (base_dir filename : string) :
  str_contains filename "/" = false ->
  os_path_basename (os_path_join base_dir filename) = filename.
Proof.
  intros Hf. unfold os_path_join.
  assert (Hstart : startswith filename "/" = false).
  { destruct filename as [|c f]; [reflexivity|].
    rewrite contains_slash_cons in Hf. apply orb_false_iff in Hf as [Hc _].
    unfold startswith. cbn [prefix].
    destruct (ascii_dec "/" c) as [<-|]; [discriminate Hc|reflexivity]. }
  rewrite Hstart.
  destruct (String.eqb_spec base_dir "") as [->|Hne]; simpl.
  - now apply basename_no_slash.
  - destruct (endswith base_dir "/") eqn:Hend.
    + destruct (endswith_slash _ Hend) as [x ->].
      rewrite append_assoc. now apply basename_after_slash.
    + now apply basename_after_slash.
Qed.

Lemma basename_of_joined_witness :
  os_path_basename (os_path_join "scripts/../mainnet" "AAA.json")
  = "AAA.json".
Proof.
  apply (basename_of_joined "scripts/../mainnet" "AAA.json"). reflexivity.
Defined.

End ValidateMore.

(** ** The two runs over the directory *)

Module RunsMore.
Import Py Reports.

Lemma filter_sorted_commute (f : string -> bool) (l : list string) :
  filter f (sorted l) = sorted (filter f l).
Proof.
  apply GenerateFacts.sorted_unique.
  - apply GenerateFacts.filter_sorted, GenerateFacts.sorted_sorted.
  - apply GenerateFacts.sorted_sorted.
  - transitivity (filter f l).
    + apply GenerateFacts.filter_perm, Permutation_sym,
        GenerateFacts.sorted_perm.
    + apply GenerateFacts.sorted_perm.
Qed.

(** The record files of two listings that hold the same record files, in
    the order the scripts take them. *)
Lemma same_record_files (f : string -> bool) (names1 names2 : list string) :
  Permutation (filter f names1) (filter f names2) ->
  filter f (sorted names1) = filter f (sorted names2).
Proof.
  intros Hperm. rewrite !filter_sorted_commute.
  now apply GenerateFacts.sorted_permutation_invariant.
Qed.

Section ValidateRun.
Import ValidateTokens.
Variable json5_load_file : string -> pyexn + json.
Variable requests_head : pyval -> pyexn + option string.

Lemma validate_all_report (base_dir : string) (json_files : list string) :
  (forall f, In f json_files ->
     exists b,
       snd (is_valid_file json5_load_file requests_head
              (os_path_join base_dir f)) = inr b) ->
  validate_all json5_load_file requests_head base_dir json_files
  = (flat_map
       (fun f =>
          record_report
            (is_valid_file json5_load_file requests_head
               (os_path_join base_dir f)) f)
       json_files,
     Returns None).
Proof.
  induction json_files as [|f files IH]; intros Hret; [reflexivity|].
  cbn [validate_all flat_map].
  destruct (Hret f (or_introl eq_refl)) as [b Hb].
  rewrite (IH (fun g Hg => Hret g (or_intror Hg))).
  destruct (is_valid_file json5_load_file requests_head
              (os_path_join base_dir f)) as [out r].
  simpl in Hb. subst r. unfold record_report.
  cbn [fst snd]. rewrite <- app_assoc.
  destruct b; reflexivity.
Qed.

(** X12: When no check raises on any record file, the run prints the count of
    record files and then, file by file in the order of the names, what
    the validator printed for the file followed by its verdict line, and
    returns.  Every record file gets exactly one verdict. *)
Theorem validation_report (base_dir : string) (names : list string) :
  filter is_record_file (sorted names) <> [] ->
  (forall f, In f (filter is_record_file (sorted names)) ->
     exists b,
       snd (is_valid_file json5_load_file requests_head
              (os_path_join base_dir f)) = inr b) ->
  main json5_load_file requests_head base_dir (Some names)
  = (LValidating (List.length (filter is_record_file (sorted names)))
     :: flat_map
          (fun f =>
             record_report
               (is_valid_file json5_load_file requests_head
                  (os_path_join base_dir f)) f)
          (filter is_record_file (sorted names)),
     Returns None).
Proof.
  intros Hne Hret. unfold main.
  destruct (filter is_record_file (sorted names)) as [|f files] eqn:Hfiles;
    [now elim Hne|].
  rewrite (validate_all_report base_dir (f :: files) Hret). reflexivity.
Qed.

(** X13: The validation run depends on the record files of the listing only:
    two listings with the same record files, in any order and with any
    other names between them, give the same output and the same end. *)
Theorem validation_listing_independent (base_dir : string)
    (names1 names2 : list string) :
  Permutation (filter is_record_file names1) (filter is_record_file names2) ->
  main json5_load_file requests_head base_dir (Some names1)
  = main json5_load_file requests_head base_dir (Some names2).
Proof.
  intros Hperm. unfold main.
  now rewrite (same_record_files is_record_file names1 names2 Hperm).
Qed.

End ValidateRun.

Lemma validation_report_witness :
  ValidateTokens.main Scenarios.staged Scenarios.probe "mainnet"
    (Some ["two_defects.json"; "README.md"; "AAA.json"; "broken.json"])
  = (LValidating 3
     :: flat_map
          (fun f =>
             record_report
               (ValidateTokens.is_valid_file Scenarios.staged Scenarios.probe
                  (os_path_join "mainnet" f)) f)
          ["AAA.json"; "broken.json"; "two_defects.json"],
     Returns None).
Proof.
  apply (validation_report Scenarios.staged Scenarios.probe "mainnet"
           ["two_defects.json"; "README.md"; "AAA.json"; "broken.json"]).
  - discriminate.
  - intros f [<-|[<-|[<-|[]]]]; eexists; reflexivity.
Defined.

(** On that directory: the record that is fine, the file that does not
    parse, the record with two defects. *)
Example validation_report_lines :
  fst (ValidateTokens.main Scenarios.staged Scenarios.probe "mainnet"
         (Some ["two_defects.json"; "README.md"; "AAA.json"; "broken.json"]))
  = [LValidating 3;
     LValid "AAA.json";
     LErrorReading "mainnet/broken.json"
       (OtherError "Unexpected end of input");
     LInvalid "broken.json";
     LInvalidChainId; LInvalid "two_defects.json"].
Proof. reflexivity. Qed.

Lemma validation_listing_independent_witness :
  ValidateTokens.main Scenarios.staged Scenarios.probe "mainnet"
    (Some ["ZZZ.json"; "README.md"; "AAA.json"])
  = ValidateTokens.main Scenarios.staged Scenarios.probe "mainnet"
      (Some ["AAA.json"; "ZZZ.json"; "logo.svg"]).
Proof.
  apply (validation_listing_independent Scenarios.staged Scenarios.probe
           "mainnet" ["ZZZ.json"; "README.md"; "AAA.json"]
           ["AAA.json"; "ZZZ.json"; "logo.svg"]).
  apply perm_swap.
Defined.

(** X14, on the record whose logo is on a host that is down: the logo
    check is the first that does not pass, and it raises. *)
Lemma validation_raises_witness :
  ValidateTokens.is_valid_file Scenarios.staged Scenarios.probe
    "mainnet/down.json"
  = ([], inl (OtherError "ConnectionError")).
Proof.
  apply (ValidateFacts.validation_raises Scenarios.staged Scenarios.probe
           "mainnet/down.json"
           (Scenarios.record 143 ("0x" ++ Scenarios.hex40) 18
              Scenarios.down_logo)
           [ValidateTokens.MissingField; ValidateTokens.WrongChain;
            ValidateTokens.InvalidAddress]
           ValidateTokens.UnreachableOrWrongTypeLogo
           [ValidateTokens.DecimalsOutOfRange]).
  - reflexivity.
  - reflexivity.
  - intros d' [<-|[<-|[<-|[]]]]; reflexivity.
  - reflexivity.
Defined.

End RunsMore.

(** ** The aggregation run on any directory *)

Module GenerateMore.
Import Py Reports GenerateTokenlists.

Section Run.
Variable json5_load_file : string -> pyexn + json.
Variable open_w : string -> option pyexn.
Variable json5_dump : string -> json -> option pyexn.

(** The loop returns a token list exactly when every file loads, and it
    is the list of what the files hold, appended in their order. *)
Lemma load_tokens_inr (base_dir : string) (json_files : list string) :
  forall acc r,
    load_tokens json5_load_file base_dir json_files acc = inr r
    <-> exists tokens,
          r = acc ++ tokens /\
          Forall2
            (fun f t => json5_load_file (os_path_join base_dir f) = inr t)
            json_files tokens.
Proof.
  induction json_files as [|f files IH]; intros acc r; simpl.
  - split.
    + intros H. injection H as <-. exists []. rewrite app_nil_r.
      split; [reflexivity|constructor].
    + intros (tokens & -> & Hfor). inversion Hfor. now rewrite app_nil_r.
  - destruct (json5_load_file (os_path_join base_dir f)) as [e|t] eqn:Hf.
    + split; [discriminate|].
      intros (tokens & _ & Hfor). inversion Hfor. congruence.
    + rewrite IH. split.
      * intros (tokens & -> & Hfor). exists (t :: tokens).
        rewrite <- app_assoc. split; [reflexivity|now constructor].
      * intros (tokens & -> & Hfor).
        inversion Hfor as [|f0 t' files0 tokens' Ht Hrest Hf0 Htokens].
        assert (Heq : t' = t) by congruence. subst t'.
        exists tokens'. rewrite <- app_assoc.
        split; [reflexivity|exact Hrest].
Qed.

(** X15: The run writes a document exactly when the directory is there,
    holds record files that all load, and the output file can be opened
    and written; the document then is the registry document of the
    clock's time and of the records in the order of the file names. *)
Theorem registry_written_iff (now base_dir : string)
    (listdir : option (list string)) (doc : json) :
  written
    (fst (main json5_load_file now open_w json5_dump base_dir listdir))
  = [doc]
  <-> exists names tokens,
        listdir = Some names /\
        filter is_record_file (sorted names) <> [] /\
        Forall2
          (fun f t => json5_load_file (os_path_join base_dir f) = inr t)
          (filter is_record_file (sorted names)) tokens /\
        open_w file_out = None /\
        json5_dump file_out doc = None /\
        doc = registry_document now tokens.
Proof.
  unfold main. destruct listdir as [names|].
  2:{ split; [discriminate|]. intros (? & ? & H & _). discriminate H. }
  destruct (filter is_record_file (sorted names)) as [|f files] eqn:Hfiles.
  { split; [discriminate|]. intros (names' & ? & H & Hne & _).
    injection H as <-. rewrite Hfiles in Hne. now elim Hne. }
  destruct (load_tokens json5_load_file base_dir (f :: files) [])
    as [[filepath e]|tokens] eqn:Hload.
  { split; [discriminate|].
    intros (names' & tokens & H & _ & Hfor & _). injection H as <-.
    rewrite Hfiles in Hfor.
    assert (Hinr : load_tokens json5_load_file base_dir (f :: files) []
                   = inr tokens)
      by (apply load_tokens_inr; exists tokens;
          split; [reflexivity|assumption]).
    congruence. }
  apply load_tokens_inr in Hload as (tokens' & Heq & Hfor).
  simpl in Heq. subst tokens'.
  fold (registry_document now tokens).
  assert (Hunique : forall tokens2,
            Forall2
              (fun f t => json5_load_file (os_path_join base_dir f) = inr t)
              (f :: files) tokens2 -> tokens2 = tokens).
  { intros tokens2 Hfor2.
    assert (H1 : load_tokens json5_load_file base_dir (f :: files) []
                 = inr tokens)
      by (apply load_tokens_inr; exists tokens;
          split; [reflexivity|assumption]).
    assert (H2 : load_tokens json5_load_file base_dir (f :: files) []
                 = inr tokens2)
      by (apply load_tokens_inr; exists tokens2;
          split; [reflexivity|assumption]).
    congruence. }
  destruct (open_w file_out) as [e|] eqn:Hopen.
  { split; [discriminate|]. intros (? & ? & _ & _ & _ & H & _). discriminate H. }
  destruct (json5_dump file_out (registry_document now tokens)) as [e|]
    eqn:Hdump.
  - split; [discriminate|].
    intros (names' & tokens2 & H & _ & Hfor2 & _ & Hd & ->).
    injection H as <-. rewrite Hfiles in Hfor2.
    rewrite (Hunique _ Hfor2) in Hd. congruence.
  - split.
    + intros H. injection H as <-. exists names, tokens.
      rewrite Hfiles. repeat split; auto. discriminate.
    + intros (names' & tokens2 & H & _ & Hfor2 & _ & _ & ->).
      injection H as <-. rewrite Hfiles in Hfor2.
      now rewrite (Hunique _ Hfor2).
Qed.

(** X16: The run opens the output file for writing, which empties it, exactly
    when the directory is there, holds record files that all load, and
    the file can be opened: before that point the run leaves the file
    alone, and a [json5.dump] that raises after it leaves the file
    emptied or cut short, with no document in it. *)
Theorem output_opened_iff (now base_dir : string)
    (listdir : option (list string)) :
  existsb touches_output
    (fst (main json5_load_file now open_w json5_dump base_dir listdir))
  = true
  <-> exists names tokens,
        listdir = Some names /\
        filter is_record_file (sorted names) <> [] /\
        Forall2
          (fun f t => json5_load_file (os_path_join base_dir f) = inr t)
          (filter is_record_file (sorted names)) tokens /\
        open_w file_out = None.
Proof.
  unfold main. destruct listdir as [names|].
  2:{ split; [discriminate|]. intros (? & ? & H & _). discriminate H. }
  destruct (filter is_record_file (sorted names)) as [|f files] eqn:Hfiles.
  { split; [discriminate|]. intros (names' & ? & H & Hne & _).
    injection H as <-. rewrite Hfiles in Hne. now elim Hne. }
  destruct (load_tokens json5_load_file base_dir (f :: files) [])
    as [[filepath e]|tokens] eqn:Hload.
  { split; [discriminate|].
    intros (names' & tokens & H & _ & Hfor & _). injection H as <-.
    rewrite Hfiles in Hfor.
    assert (Hinr : load_tokens json5_load_file base_dir (f :: files) []
                   = inr tokens)
      by (apply load_tokens_inr; exists tokens;
          split; [reflexivity|assumption]).
    congruence. }
  apply load_tokens_inr in Hload as (tokens' & Heq & Hfor).
  simpl in Heq. subst tokens'.
  destruct (open_w file_out) as [e|] eqn:Hopen.
  { split; [discriminate|]. intros (? & ? & _ & _ & _ & H). discriminate H. }
  split.
  - intros _. exists names, tokens. rewrite Hfiles.
    repeat split; auto. discriminate.
  - intros _. destruct (json5_dump file_out _); reflexivity.
Qed.

(** X17: The exit status of the aggregation run is 1 when the directory is
    missing and 0 on every other path: no record file, a record file
    that does not load, an output file that cannot be written. *)
Theorem generate_exit_status (now base_dir : string)
    (listdir : option (list string)) :
  exit_status
    (snd (main json5_load_file now open_w json5_dump base_dir listdir))
  = match listdir with None => 1 | Some _ => 0 end.
Proof.
  unfold main. destruct listdir as [names|]; [|reflexivity].
  destruct (filter is_record_file (sorted names)) as [|f files];
    [reflexivity|].
  destruct (load_tokens json5_load_file base_dir (f :: files) [])
    as [[filepath e]|tokens]; [reflexivity|].
  destruct (open_w file_out); [reflexivity|].
  destruct (json5_dump file_out _); reflexivity.
Qed.

(** X18: The aggregation run depends on the record files of the listing only:
    two listings with the same record files, in any order and with any
    other names between them, give the same effects and the same end,
    whether or not the files load. *)
Theorem generate_listing_independent (now base_dir : string)
    (names1 names2 : list string) :
  Permutation (filter is_record_file names1) (filter is_record_file names2) ->
  main json5_load_file now open_w json5_dump base_dir (Some names1)
  = main json5_load_file now open_w json5_dump base_dir (Some names2).
Proof.
  intros Hperm. unfold main.
  now rewrite (RunsMore.same_record_files is_record_file names1 names2 Hperm).
Qed.

End Run.

Lemma generate_listing_independent_witness :
  main Scenarios.staged "2026-01-01T00:00:00+00:00" Scenarios.open_ok
    Scenarios.dump_ok "mainnet" (Some ["broken.json"; "README.md"; "AAA.json"])
  = main Scenarios.staged "2026-01-01T00:00:00+00:00" Scenarios.open_ok
      Scenarios.dump_ok "mainnet" (Some ["AAA.json"; "broken.json"]).
Proof.
  apply (generate_listing_independent Scenarios.staged Scenarios.open_ok
           Scenarios.dump_ok "2026-01-01T00:00:00+00:00" "mainnet"
           ["broken.json"; "README.md"; "AAA.json"]
           ["AAA.json"; "broken.json"]).
  apply perm_swap.
Defined.

End GenerateMore.

(** ** The cost of a fetch *)

Module FetchBudget.
Import Web3Utils Web3Traces FetchFacts.

Section Budget.
Context {W E V D C : Type}.
Variable mul : D -> D -> D.
Variable time_sleep : D -> W -> W.
Variable eth_contract : string -> W -> W * (E + C).
Variable call_name call_symbol call_decimals : C -> W -> W * (E + V).

(** One executor run: at most [n] calls, at most [n - 1] sleeps, each of
    an allowed delay. *)
Lemma retry_run_budget (func : @operation W E V) (n : Z) (d b : D)
    (op : string) (w : W) w' tr res :
  _retry_with_backoff mul time_sleep func n d b op w = (w', tr, res) ->
  (count_calls tr <= Z.to_nat n)%nat /\
  (List.length (sleep_delays tr) <= Z.to_nat n - 1)%nat /\
  Forall (allowed_delay mul n d b) (sleep_delays tr).
Proof.
  unfold _retry_with_backoff. intros Hrun.
  destruct (Z.to_nat n) as [|todo] eqn:Htodo.
  { injection Hrun as <- <- <-.
    split; [apply Nat.le_0_l|split; [apply Nat.le_0_l|constructor]]. }
  apply RetryShape.retry_loop_shape in Hrun; [|lia].
  destruct Hrun as (es & o & -> & Ho).
  assert (Hlen : (List.length es <= todo)%nat)
    by (destruct o; destruct Ho; lia).
  rewrite RetryShape.count_calls_app, RetryShape.sleep_delays_app,
    RetryShape.failed_attempts_calls, RetryShape.failed_attempts_delays,
    app_nil_r, length_map, length_seq.
  split; [unfold count_calls; simpl; lia|]. split; [lia|].
  apply Forall_forall. intros x Hx.
  apply in_map_iff in Hx as (i & <- & Hi). apply in_seq in Hi.
  exists i. split; [lia|reflexivity].
Qed.

(** One field's fetch costs no more than one executor run. *)
Lemma field_fetch_budget (call : C -> W -> W * (E + V)) (addr : string)
    (n : Z) (d b : D) (op : string) (w : W) w' tr res :
  bind (contract_at eth_contract addr)
    (fun contract => retrying mul time_sleep (call contract) n d b op) w
  = (w', tr, res) ->
  (count_calls tr <= Z.to_nat n)%nat /\
  (List.length (sleep_delays tr) <= Z.to_nat n - 1)%nat /\
  Forall (allowed_delay mul n d b) (sleep_delays tr).
Proof.
  unfold bind, contract_at, retrying.
  destruct (eth_contract addr w) as [w1 [e|c]].
  - intros H. injection H as <- <- <-.
    split; [apply Nat.le_0_l|split; [apply Nat.le_0_l|constructor]].
  - destruct (_retry_with_backoff mul time_sleep (call c) n d b op w1)
      as [[w2 tr2] res2] eqn:Hrun.
    apply retry_run_budget in Hrun.
    destruct res2; intros H; injection H as <- <- <-; exact Hrun.
Qed.

(** The cost of a fetch, for a run at hand. *)
Lemma fetch_run_budget (addr : string) (n : Z) (d b : D) (w : W) w' tr res :
  fetch_token_data_with_retry mul time_sleep eth_contract call_name
    call_symbol call_decimals addr n d b w = (w', tr, res) ->
  (count_calls tr <= 3 * Z.to_nat n)%nat /\
  (List.length (sleep_delays tr) <= 3 * (Z.to_nat n - 1))%nat /\
  Forall (allowed_delay mul n d b) (sleep_delays tr).
Proof.
  intros Hrun. unfold fetch_token_data_with_retry in Hrun.
  apply bind_inv in Hrun
    as [(err & H1 & ->) | (vn & w1 & t1 & t1' & H1 & Hrun & ->)];
    apply field_fetch_budget in H1; destruct H1 as (Hc1 & Hs1 & Hd1).
  { repeat split; auto; lia. }
  apply bind_inv in Hrun
    as [(err & H2 & ->) | (vs & w2 & t2 & t2' & H2 & Hrun & ->)];
    apply field_fetch_budget in H2; destruct H2 as (Hc2 & Hs2 & Hd2).
  { rewrite RetryShape.count_calls_app, RetryShape.sleep_delays_app,
      length_app.
    split; [lia|]. split; [lia|]. apply Forall_app. auto. }
  apply bind_inv in Hrun
    as [(err & H3 & ->) | (vd & w3 & t3 & t3' & H3 & Hrun & ->)];
    apply field_fetch_budget in H3; destruct H3 as (Hc3 & Hs3 & Hd3).
  { rewrite !RetryShape.count_calls_app, !RetryShape.sleep_delays_app,
      !length_app.
    split; [lia|]. split; [lia|]. repeat (apply Forall_app; split); auto. }
  injection Hrun as <- <- <-. rewrite app_nil_r.
  rewrite !RetryShape.count_calls_app, !RetryShape.sleep_delays_app,
    !length_app.
  split; [lia|]. split; [lia|]. repeat (apply Forall_app; split); auto.
Qed.

(** X19: A fetch calls the contract at most three times its budget, sleeps at
    most three times its budget less one, and never sleeps longer than
    the initial delay times the backoff [max_retries - 2] times over:
    the delay starts again at the initial delay with every field. *)
Theorem fetch_budget (addr : string) (n : Z) (d b : D) (w : W) :
  (count_calls
     (snd (fst (fetch_token_data_with_retry mul time_sleep eth_contract
                  call_name call_symbol call_decimals addr n d b w)))
   <= 3 * Z.to_nat n)%nat /\
  (List.length
     (sleep_delays
        (snd (fst (fetch_token_data_with_retry mul time_sleep eth_contract
                     call_name call_symbol call_decimals addr n d b w))))
   <= 3 * (Z.to_nat n - 1))%nat /\
  Forall (allowed_delay mul n d b)
    (sleep_delays
       (snd (fst (fetch_token_data_with_retry mul time_sleep eth_contract
                    call_name call_symbol call_decimals addr n d b w)))).
Proof.
  destruct (fetch_token_data_with_retry mul time_sleep eth_contract
              call_name call_symbol call_decimals addr n d b w)
    as [[w' tr] res] eqn:Hrun.
  simpl. exact (fetch_run_budget addr n d b w w' tr res Hrun).
Qed.

(** What a fetch that returns a record leaves in the trace. *)
Lemma fetch_run_record (addr : string) (n : Z) (d b : D) (w : W) w' tr t :
  fetch_token_data_with_retry mul time_sleep eth_contract call_name
    call_symbol call_decimals addr n d b w = (w', tr, inr t) ->
  chainId t = 143 /\ address t = addr /\
  returned_by "fetch name" tr = [name t] /\
  returned_by "fetch symbol" tr = [symbol t] /\
  returned_by "fetch decimals" tr = [decimals t].
Proof.
  intros Hrun. unfold fetch_token_data_with_retry in Hrun.
  apply bind_inv in Hrun
    as [(err & H1 & Herr) | (vn & w1 & t1 & t1' & H1 & Hrun & ->)];
    [discriminate Herr|].
  apply bind_inv in Hrun
    as [(err & H2 & Herr) | (vs & w2 & t2 & t2' & H2 & Hrun & ->)];
    [discriminate Herr|].
  apply bind_inv in Hrun
    as [(err & H3 & Herr) | (vd & w3 & t3 & t3' & H3 & Hrun & ->)];
    [discriminate Herr|].
  injection Hrun as <- <- <-. rewrite app_nil_r.
  apply field_fetch_run in H1, H2, H3.
  pose proof (field_run_other _ "fetch symbol" _ _ _ H1 ltac:(discriminate))
    as (_ & _ & Hs1 & _).
  pose proof (field_run_other _ "fetch decimals" _ _ _ H1 ltac:(discriminate))
    as (_ & _ & Hd1 & _).
  pose proof (field_run_other _ "fetch name" _ _ _ H2 ltac:(discriminate))
    as (_ & _ & Hn2 & _).
  pose proof (field_run_other _ "fetch decimals" _ _ _ H2 ltac:(discriminate))
    as (_ & _ & Hd2 & _).
  pose proof (field_run_other _ "fetch name" _ _ _ H3 ltac:(discriminate))
    as (_ & _ & Hn3 & _).
  pose proof (field_run_other _ "fetch symbol" _ _ _ H3 ltac:(discriminate))
    as (_ & _ & Hs3 & _).
  destruct H1 as (_ & _ & _ & Hv1 & _). destruct H2 as (_ & _ & _ & Hv2 & _).
  destruct H3 as (_ & _ & _ & Hv3 & _).
  rewrite !returned_by_app, Hv1, Hv2, Hv3, Hs1, Hd1, Hn2, Hd2, Hn3, Hs3.
  simpl. auto.
Qed.

End Budget.

End FetchBudget.

(** ** The add-token script *)

Module AddTokenFacts.
Import Web3Utils Web3Traces AddToken.

Section Script.
Context {W E V C P X : Type}.
Variable time_sleep : PrimFloat.float -> W -> W.
Variable eth_contract : string -> W -> W * (E + C).
Variable call_name call_symbol call_decimals : C -> W -> W * (E + V).
Variable is_connected : string -> W -> W * bool.
Variable is_address : string -> bool.
Variable to_checksum_address : string -> string.
Variable environ_rpc_url : option string.
Variable truediv : P -> string -> P.
Variable as_str : V -> option string.
Variable script_parent : P.
Variable is_dir : P -> bool.
Variable path_exists : P -> bool.
Variable mkdir : P -> option X.
Variable open_w : P -> option X.
Variable json_dump : token_data V -> option X.
Variable named_E : E -> bool.
Variable named_X : X -> bool.

Let body (address : string) (w : W) :=
  add_token time_sleep eth_contract call_name call_symbol call_decimals
    is_connected is_address to_checksum_address environ_rpc_url truediv
    as_str script_parent is_dir path_exists mkdir open_w json_dump
    address w.

Let run (arg_address prompted : option string) (w : W) :=
  main time_sleep eth_contract call_name call_symbol call_decimals
    is_connected is_address to_checksum_address environ_rpc_url truediv
    as_str script_parent is_dir path_exists mkdir open_w json_dump
    named_E named_X arg_address prompted w.

Lemma ledger_events_app (efs1 efs2 : list (effect E V P X)) :
  ledger_events (efs1 ++ efs2) = ledger_events efs1 ++ ledger_events efs2.
Proof. apply flat_map_app. Qed.

Lemma records_written_app (efs1 efs2 : list (effect E V P X)) :
  records_written (efs1 ++ efs2)
  = records_written efs1 ++ records_written efs2.
Proof. apply flat_map_app. Qed.

Lemma ledger_events_ledger (tr : list (event E V PrimFloat.float)) :
  ledger_events (map (@Ledger E V P X) tr) = tr.
Proof. induction tr as [|ev tr IH]; simpl; congruence. Qed.

Lemma records_written_ledger (tr : list (event E V PrimFloat.float)) :
  records_written (map (@Ledger E V P X) tr) = [].
Proof. induction tr as [|ev tr IH]; simpl; congruence. Qed.

Lemma touches_files_ledger (tr : list (event E V PrimFloat.float)) :
  existsb touches_files (map (@Ledger E V P X) tr) = false.
Proof. induction tr as [|ev tr IH]; simpl; congruence. Qed.

(** The delays the defaults allow: one second and two. *)
Lemma default_delays (x : PrimFloat.float) :
  allowed_delay PrimFloat.mul DEFAULT_MAX_RETRIES DEFAULT_RETRY_DELAY
    DEFAULT_RETRY_BACKOFF x ->
  x = 1%float \/ x = 2%float.
Proof.
  intros (i & Hi & ->). change (Z.to_nat DEFAULT_MAX_RETRIES) with 3%nat in Hi.
  destruct i as [|[|i]]; [left|right|lia]; reflexivity.
Qed.

Lemma existsb_touches_app (efs1 efs2 : list (effect E V P X)) :
  existsb touches_files (efs1 ++ efs2)
  = existsb touches_files efs1 || existsb touches_files efs2.
Proof. apply existsb_app. Qed.

Lemma ledger_events_cons (ef : effect E V P X) (efs : list (effect E V P X)) :
  ledger_events (ef :: efs)
  = match ef with Ledger ev => [ev] | _ => [] end ++ ledger_events efs.
Proof. reflexivity. Qed.

Lemma records_written_cons (ef : effect E V P X)
    (efs : list (effect E V P X)) :
  records_written (ef :: efs)
  = match ef with Written file data => [(file, data)] | _ => [] end
    ++ records_written efs.
Proof. reflexivity. Qed.

(** Bringing [ledger_events], [records_written] and [touches_files] of
    an explicit list of effects to their values. *)
Ltac read_effects :=
  cbn [existsb touches_files orb];
  repeat (rewrite ledger_events_cons || rewrite ledger_events_app
          || rewrite ledger_events_ledger || rewrite records_written_cons
          || rewrite records_written_app || rewrite records_written_ledger
          || rewrite existsb_touches_app || rewrite touches_files_ledger);
  cbn [app existsb touches_files orb]; rewrite ?app_nil_r.

Let shape (addr : string) efs res :=
  run_shape is_address to_checksum_address truediv as_str script_parent
    is_dir path_exists mkdir (E:=E) (V:=V) (P:=P) (X:=X) addr efs res.

(** A run that raised before it touched a file. *)
Lemma early_failure (addr : string) (efs : list (effect E V P X))
    (e : exn E P X) :
  (count_calls (ledger_events efs) <= 9)%nat ->
  (List.length (sleep_delays (ledger_events efs)) <= 6)%nat ->
  Forall (fun x => x = 1%float \/ x = 2%float)
    (sleep_delays (ledger_events efs)) ->
  existsb touches_files efs = false ->
  records_written efs = [] ->
  shape addr efs (inl e).
Proof.
  intros Hc Hs Hd Ht Hr. exists efs, [].
  rewrite app_nil_r. repeat split; auto. left. eauto.
Qed.

(** The runs of the body of the [try], stage by stage. *)
Lemma body_run (addr : string) (w : W) w' efs res :
  body addr w = (w', efs, res) -> shape addr efs res.
Proof.
  unfold body, add_token, validate_address, get_web3_connection,
    fetch_token_data, get_mainnet_directory, create_token_directory.
  unfold AddToken.bind, print, AddToken.ret, raise, effect_of.
  destruct (is_address addr) eqn:Haddr; cbn.
  2:{ intros H. injection H as <- <- <-.
      apply early_failure; cbn; try reflexivity; try apply Nat.le_0_l.
      constructor. }
  destruct (is_connected (RPC_URL environ_rpc_url) w) as [w1 [|]]; cbn.
  2:{ intros H. injection H as <- <- <-.
      apply early_failure; cbn; try reflexivity; try apply Nat.le_0_l.
      constructor. }
  destruct (fetch_token_data_with_retry PrimFloat.mul time_sleep eth_contract
              call_name call_symbol call_decimals (to_checksum_address addr)
              DEFAULT_MAX_RETRIES DEFAULT_RETRY_DELAY DEFAULT_RETRY_BACKOFF w1)
    as [[w2 tr] [err|data]] eqn:Hfetch; cbn.
  all: pose proof (FetchBudget.fetch_run_budget _ _ _ _ _ _ _ _ _ _ _ _ _ _
                     Hfetch) as (Hcalls & Hsleeps & Hdelays).
  all: change (Z.to_nat DEFAULT_MAX_RETRIES) with 3%nat in Hcalls, Hsleeps.
  all: assert (Hdelays' : Forall (fun x => x = 1%float \/ x = 2%float)
                            (sleep_delays tr))
         by (eapply Forall_impl; [|exact Hdelays]; apply default_delays).
  all: clear Hdelays.
  { intros H. injection H as <- <- <-.
    apply early_failure; read_effects; auto. }
  pose proof (FetchBudget.fetch_run_record _ _ _ _ _ _ _ _ _ _ _ _ _ _
                Hfetch) as (Hchain & Haddress & Hname & Hsymbol & Hdecimals).
  destruct (is_dir (truediv script_parent "mainnet")) eqn:Hdir; cbn.
  2:{ intros H. injection H as <- <- <-.
      apply early_failure; read_effects; auto. }
  destruct (as_str (symbol data)) as [s|] eqn:Hstr; cbn.
  2:{ intros H. injection H as <- <- <-.
      apply early_failure; read_effects; auto. }
  destruct (path_exists (truediv (truediv script_parent "mainnet") s))
    eqn:Hexists; cbn.
  { intros H. injection H as <- <- <-.
    apply early_failure; read_effects; auto. }
  destruct (mkdir (truediv (truediv script_parent "mainnet") s)) as [x|]
    eqn:Hmkdir; cbn.
  { intros H. injection H as <- <- <-.
    apply early_failure; read_effects; auto. }
  (* from here on the token directory is made *)
  assert (Hlate : forall post res0,
            ledger_events post = [] ->
            (post = [Mkdir (truediv (truediv script_parent "mainnet") s)] /\
             (exists x, res0 = inl (OsError x)) \/
             post = [Mkdir (truediv (truediv script_parent "mainnet") s);
                     OpenW (truediv (truediv (truediv script_parent "mainnet")
                                       s) "data.json")] /\
             (exists x, res0 = inl (OsError x)) \/
             post = [Mkdir (truediv (truediv script_parent "mainnet") s);
                     OpenW (truediv (truediv (truediv script_parent "mainnet")
                                       s) "data.json");
                     Written (truediv (truediv (truediv script_parent
                                                  "mainnet") s) "data.json")
                       data;
                     Out LAdded;
                     Out (LDirectory
                            (truediv (truediv script_parent "mainnet") s));
                     Out (LDataFile
                            (truediv (truediv (truediv script_parent "mainnet")
                                        s) "data.json"));
                     Out (LNote (symbol data))] /\
             res0 = inr 0) ->
            shape addr
              ([Out (LValidating addr);
                Out (LChecksummed (to_checksum_address addr));
                Out LConnected; Out (LFetching (to_checksum_address addr))]
               ++ map Ledger tr
               ++ [Out LTokenFound; Out (LName (name data));
                   Out (LSymbol (symbol data));
                   Out (LDecimals (decimals data)); Out LCreating]
               ++ post) res0).
  { intros post res0 Hpost Hcases.
    exists ([Out (LValidating addr);
             Out (LChecksummed (to_checksum_address addr));
             Out LConnected; Out (LFetching (to_checksum_address addr))]
            ++ map Ledger tr
            ++ [Out LTokenFound; Out (LName (name data));
                Out (LSymbol (symbol data));
                Out (LDecimals (decimals data)); Out LCreating]), post.
    split; [now rewrite <- !app_assoc|].
    read_effects.
    repeat match goal with |- _ /\ _ => split end; auto.
    right. exists data, s.
    repeat match goal with |- _ /\ _ => split end; auto. }
  destruct (open_w (truediv (truediv (truediv script_parent "mainnet") s)
                      "data.json")) as [x|] eqn:Hopen; cbn.
  { intros H. injection H as <- <- <-.
    apply (Hlate [Mkdir _]); [reflexivity|]. left. eauto. }
  destruct (json_dump data) as [x|] eqn:Hdump; cbn.
  { intros H. injection H as <- <- <-.
    apply (Hlate [Mkdir _; OpenW _]); [reflexivity|]. right. left. eauto. }
  intros H. injection H as <- <- <-.
  apply (Hlate [Mkdir _; OpenW _; Written _ _; Out _; Out _; Out _; Out _]);
    [reflexivity|]. right. right. auto.
Qed.


(** The body reaches the ledger only with an address the library
    accepts and after the probe of the endpoint answered. *)
Lemma body_ledger (addr : string) (w : W) w' efs res :
  body addr w = (w', efs, res) ->
  ledger_events efs <> [] ->
  is_address addr = true /\
  snd (is_connected (RPC_URL environ_rpc_url) w) = true.
Proof.
  unfold body, add_token, validate_address, get_web3_connection.
  unfold AddToken.bind, print, AddToken.ret, raise.
  destruct (is_address addr) eqn:Haddr; cbn.
  2:{ intros H. injection H as <- <- <-. intros Hne. now elim Hne. }
  destruct (is_connected (RPC_URL environ_rpc_url) w) as [w1 [|]]; cbn.
  2:{ intros H. injection H as <- <- <-. intros Hne. now elim Hne. }
  intros _ _. split; reflexivity.
Qed.

(** X20: The script reaches the ledger only for an address that
    [Web3.is_address] accepts, and only after the endpoint, the one of
    [MONAD_RPC_URL] when the variable is set and the default one
    otherwise, answered the probe: a run that fails before that makes no
    call and does not sleep. *)
Theorem ledger_after_validation (arg_address prompted : option string)
    (w : W) :
  ledger_events (snd (fst (run arg_address prompted w))) = [] \/
  exists addr,
    (arg_address = Some addr \/ prompted = Some addr) /\
    is_address addr = true /\
    snd (is_connected
           match environ_rpc_url with
           | Some url => url
           | None => DEFAULT_RPC_URL
           end w) = true.
Proof.
  unfold run, main.
  assert (Hbody : forall addr,
            (arg_address = Some addr \/ prompted = Some addr) ->
            ledger_events
              (snd (fst
                 match body addr w with
                 | (w1, efs1, inr code) => (w1, efs1, Return code)
                 | (w1, efs1, inl e) =>
                     (w1,
                      efs1
                      ++ [Out (if named named_E named_X e
                               then LError e else LUnexpected e)],
                      Return 1)
                 end)) = [] \/
            exists addr0,
              (arg_address = Some addr0 \/ prompted = Some addr0) /\
              is_address addr0 = true /\
              snd (is_connected (RPC_URL environ_rpc_url) w) = true).
  { intros addr Hused.
    destruct (body addr w) as [[w1 efs1] res1] eqn:Hrun.
    pose proof (body_ledger addr w w1 efs1 res1 Hrun) as Hledger.
    destruct (ledger_events efs1) as [|ev evs] eqn:Hevents.
    - left. destruct res1; cbn [fst snd]; [|exact Hevents].
      rewrite ledger_events_app, Hevents. reflexivity.
    - right. exists addr. split; [exact Hused|].
      apply Hledger. discriminate. }
  destruct arg_address as [a|].
  - destruct (String.eqb a "") eqn:Ha.
    + destruct prompted as [p|]; [|now left].
      destruct (String.eqb p "") eqn:Hp; [now left|].
      apply Hbody. now right.
    + rewrite Ha. apply Hbody. now left.
  - destruct prompted as [p|]; [|now left].
    destruct (String.eqb p "") eqn:Hp; [now left|].
    apply Hbody. now right.
Qed.

(** A run of [main] is the failure of [input], the refusal of an empty
    address, or a run of the body on the address given or asked for,
    with the line of the handler added when the body raised. *)
Lemma main_run (arg_address prompted : option string) (w : W) :
  run arg_address prompted w = (w, [], InputRaised) \/
  run arg_address prompted w = (w, [Out LNoAddress], Return 1) \/
  exists addr w' efs res,
    (arg_address = Some addr \/ prompted = Some addr) /\
    shape addr efs res /\
    ((res = inr 0 /\ run arg_address prompted w = (w', efs, Return 0)) \/
     (exists e l,
        res = inl e /\
        run arg_address prompted w = (w', efs ++ [Out l], Return 1))).
Proof.
  unfold run, main.
  assert (Hbody : forall addr,
            (arg_address = Some addr \/ prompted = Some addr) ->
            exists addr0 w' efs res,
              (arg_address = Some addr0 \/ prompted = Some addr0) /\
              shape addr0 efs res /\
              ((res = inr 0 /\
                match body addr w with
                | (w1, efs1, inr code) => (w1, efs1, Return code)
                | (w1, efs1, inl e) =>
                    (w1,
                     efs1
                     ++ [Out (if named named_E named_X e
                              then LError e else LUnexpected e)],
                     Return 1)
                end = (w', efs, Return 0)) \/
               (exists e l,
                  res = inl e /\
                  match body addr w with
                  | (w1, efs1, inr code) => (w1, efs1, Return code)
                  | (w1, efs1, inl e) =>
                      (w1,
                       efs1
                       ++ [Out (if named named_E named_X e
                                then LError e else LUnexpected e)],
                       Return 1)
                  end = (w', efs ++ [Out l], Return 1)))).
  { intros addr Hused.
    destruct (body addr w) as [[w1 efs1] res1] eqn:Hrun.
    pose proof (body_run addr w w1 efs1 res1 Hrun) as Hshape.
    exists addr, w1, efs1, res1. split; [exact Hused|]. split; [exact Hshape|].
    destruct res1 as [e|code].
    - right. eauto.
    - left.
      destruct Hshape as (pre & post & _ & _ & _ & _ & _ & _ & _ & Hcases).
      destruct Hcases as [[_ [e He]]|(data & s & Hrest)]; [discriminate He|].
      destruct Hrest as (_ & _ & _ & _ & _ & _ & _ & _ & _ & _ & Hpost).
      destruct Hpost as [[_ [x Hx]]|[[_ [x Hx]]|[_ Hres]]];
        try discriminate.
      injection Hres as ->. auto. }
  destruct arg_address as [a|].
  - destruct (String.eqb a "") eqn:Ha.
    + destruct prompted as [p|]; [|now left].
      destruct (String.eqb p "") eqn:Hp; [right; left; reflexivity|].
      right. right. apply Hbody. now right.
    + rewrite Ha. right. right. apply Hbody. now left.
  - destruct prompted as [p|]; [|now left].
    destruct (String.eqb p "") eqn:Hp; [right; left; reflexivity|].
    right. right. apply Hbody. now right.
Qed.

(** X21: Whatever the ledger does, a run of the script calls the contract at
    most nine times and sleeps at most six times, for one second or for
    two: the defaults give each of the three fields three attempts,
    with delays that start at one second and double. *)
Theorem add_token_budget (arg_address prompted : option string) (w : W) :
  (count_calls (ledger_events (snd (fst (run arg_address prompted w))))
   <= 9)%nat /\
  (List.length
     (sleep_delays (ledger_events (snd (fst (run arg_address prompted w)))))
   <= 6)%nat /\
  Forall (fun x => x = 1%float \/ x = 2%float)
    (sleep_delays (ledger_events (snd (fst (run arg_address prompted w))))).
Proof.
  destruct (main_run arg_address prompted w)
    as [->|[->|(addr & w' & efs & res & _ & Hshape & Hrun)]].
  - cbn. repeat split; try apply Nat.le_0_l. constructor.
  - cbn. repeat split; try apply Nat.le_0_l. constructor.
  - destruct Hshape
      as (pre & post & -> & _ & _ & Hpost & Hc & Hs & Hd & _).
    destruct Hrun as [[_ ->]|(e & l & _ & ->)]; cbn [fst snd];
      read_effects; rewrite Hpost, ?app_nil_r; auto.
Qed.

(** X22: The script touches the files only after the whole fetch: every
    event of the ledger comes before the first [mkdir], [open] or write,
    and when the run touches a file at all, each of [name()], [symbol()]
    and [decimals()] has returned its value by then. *)
Theorem files_after_fetch (arg_address prompted : option string) (w : W) :
  exists pre post,
    snd (fst (run arg_address prompted w)) = pre ++ post /\
    existsb touches_files pre = false /\
    ledger_events post = [] /\
    (existsb touches_files post = true ->
     exists vn vs vd,
       returned_by "fetch name" (ledger_events pre) = [vn] /\
       returned_by "fetch symbol" (ledger_events pre) = [vs] /\
       returned_by "fetch decimals" (ledger_events pre) = [vd]).
Proof.
  destruct (main_run arg_address prompted w)
    as [->|[->|(addr & w' & efs & res & _ & Hshape & Hrun)]].
  - exists [], []. cbn. repeat split; auto. discriminate.
  - exists [Out LNoAddress], []. cbn. repeat split; auto. discriminate.
  - destruct Hshape
      as (pre & post & -> & Hpre & _ & Hpost & _ & _ & _ & Hcases).
    assert (Hvalues : post <> [] ->
              exists vn vs vd,
                returned_by "fetch name" (ledger_events pre) = [vn] /\
                returned_by "fetch symbol" (ledger_events pre) = [vs] /\
                returned_by "fetch decimals" (ledger_events pre) = [vd]).
    { intros Hne. destruct Hcases as [[-> _]|(data & s & Hrest)];
        [now elim Hne|].
      destruct Hrest as (_ & _ & _ & Hn & Hs & Hd & _).
      exists (name data), (symbol data), (decimals data). auto. }
    destruct Hrun as [[_ ->]|(e & l & _ & ->)]; cbn [fst snd].
    + exists pre, post. repeat split; auto.
      intros Htouch. apply Hvalues. intros ->. discriminate Htouch.
    + exists pre, (post ++ [Out l]). rewrite app_assoc.
      repeat split; auto.
      * rewrite ledger_events_app, Hpost. reflexivity.
      * rewrite existsb_touches_app. cbn. rewrite orb_false_r.
        intros Htouch. apply Hvalues. intros ->. discriminate Htouch.
Qed.


End Script.

(** A run on the ledger that answers every call: three calls, then the
    directory, the file and the record. *)
Example add_token_steady :
  main (fun _ w => w) Scenarios.any_contract Scenarios.flaky_name
    Scenarios.flaky_symbol MoreScenarios.steady_decimals
    MoreScenarios.connected MoreScenarios.known_address
    MoreScenarios.checksummed None MoreScenarios.child Some "repo"
    MoreScenarios.always MoreScenarios.never MoreScenarios.no_error
    MoreScenarios.no_error MoreScenarios.no_error MoreScenarios.never
    MoreScenarios.never (Some "0xabc") None 0%nat
  = (3%nat,
     [Out (LValidating "0xabc"); Out (LChecksummed "0xAbC");
      Out LConnected; Out (LFetching "0xAbC");
      Ledger (EvCall "fetch name" (inr "Test"));
      Ledger (EvCall "fetch symbol" (inr "TST"));
      Ledger (EvCall "fetch decimals" (inr "18"));
      Out LTokenFound; Out (LName "Test"); Out (LSymbol "TST");
      Out (LDecimals "18"); Out LCreating;
      Mkdir "repo/mainnet/TST"; OpenW "repo/mainnet/TST/data.json";
      Written "repo/mainnet/TST/data.json"
        (TokenData 143 "0xAbC" "Test" "TST" "18");
      Out LAdded; Out (LDirectory "repo/mainnet/TST");
      Out (LDataFile "repo/mainnet/TST/data.json"); Out (LNote "TST")],
     Return 0).
Proof. reflexivity. Qed.

(** A run on the ledger whose [decimals()] always raises: three attempts
    with sleeps of one second and two, no file touched, exit code 1. *)
Example add_token_flaky :
  main (fun _ w => w) Scenarios.any_contract Scenarios.flaky_name
    Scenarios.flaky_symbol Scenarios.flaky_decimals
    MoreScenarios.connected MoreScenarios.known_address
    MoreScenarios.checksummed None MoreScenarios.child Some "repo"
    MoreScenarios.always MoreScenarios.never MoreScenarios.no_error
    MoreScenarios.no_error MoreScenarios.no_error MoreScenarios.never
    MoreScenarios.never None (Some "0xabc") 0%nat
  = (5%nat,
     [Out (LValidating "0xabc"); Out (LChecksummed "0xAbC");
      Out LConnected; Out (LFetching "0xAbC");
      Ledger (EvCall "fetch name" (inr "Test"));
      Ledger (EvCall "fetch symbol" (inr "TST"));
      Ledger (EvCall "fetch decimals" (inl "execution reverted"));
      Ledger (EvSleep 1%float);
      Ledger (EvCall "fetch decimals" (inl "execution reverted"));
      Ledger (EvSleep 2%float);
      Ledger (EvCall "fetch decimals" (inl "execution reverted"));
      Out (LUnexpected
             (FetchError
                (Exhausted
                   (RetryExhausted "fetch decimals" 3
                      (Some "execution reverted")))))],
     Return 1).
Proof. reflexivity. Qed.

End AddTokenFacts.
